(** * SWIFT task-dependency plotter: a shallow embedding of
      [tools/plot_task_dependencies.py] and the properties of its
      classifier, writers and driver loop.

    Python [str] values are modelled as [string], with characters taken as
    8-bit code points.  Exceptions are values of [exn] carried by [result].
    The DataFrame returned by [read_csv] is a list of rows with a default
    integer index, so [for i in range(N)] and [iterrows] both walk the list
    in order. *)

From Stdlib Require Import List String Ascii ZArith Bool Lia Arith.
From Stdlib Require Import OrdersEx DecimalString Sorted RelationClasses.
Import ListNotations.
Open Scope string_scope.

(* ------------------------------------------------------------------ *)
(** ** Characters and string primitives *)

Definition chr (n : nat) : string := String (ascii_of_nat n) EmptyString.
Definition TAB : string := chr 9.
Definition NL : string := chr 10.
Definition DQ : string := chr 34.

(** [sub in s] for Python strings: [sub] occurs in [s] at some offset. *)
Fixpoint str_in (sub s : string) : bool :=
  String.prefix sub s
  || match s with
     | EmptyString => false
     | String _ s' => str_in sub s'
     end.

(** [s.startswith(p)]. *)
Definition startswith (s p : string) : bool := String.prefix p s.

(** [x in l] for a Python list of strings. *)
Definition list_in (x : string) (l : list string) : bool :=
  existsb (String.eqb x) l.

(** The propositional reading of substring occurrence. *)
Definition occurs_in (sub s : string) : Prop :=
  exists pre post, s = pre ++ sub ++ post.

(* ------------------------------------------------------------------ *)
(** ** Exceptions

    The exceptions the script raises itself, those of the indexing and
    dict lookups it performs, and [OtherError] for whatever a library
    call may raise. *)

Inductive exn : Type :=
| FileNotFoundError (msg : string)
| ValueError (msg1 msg2 : string)
| Exception (msg : string)
| IndexError
| KeyError (key : string)
| TypeError (msg : string)
| OtherError (msg : string).

Inductive result (A : Type) : Type :=
| Ok (a : A)
| Raise (e : exn).
Arguments Ok {A} a.
Arguments Raise {A} e.

Definition rbind {A B} (r : result A) (k : A -> result B) : result B :=
  match r with
  | Ok a => k a
  | Raise e => Raise e
  end.

Declare Scope result_scope.
Delimit Scope result_scope with result.
Notation "'try!' x <- r ; k" := (rbind r (fun x => k))
  (at level 61, x name, r at next level, right associativity) : result_scope.

(* ------------------------------------------------------------------ *)
(** ** The colour table and the task classifier *)

Module Classifier.

(** A Python dict with string keys, kept as an association list; [d[k]]
    raises [KeyError] when the key is absent. *)
Definition dict := list (string * string).

Fixpoint getitem (d : dict) (k : string) : result string :=
  match d with
  | [] => Raise (KeyError k)
  | (k', v) :: d' => if String.eqb k k' then Ok v else getitem d' k
  end.

Definition task_colours : dict :=
  [ ("black_holes", "forestgreen");
    ("stars", "darkorange1");
    ("hydro", "blue3");
    ("gravity", "red3");
    ("RT", "springgreen");
    ("sink", "lightseagreen") ].

Definition task_is_black_holes (name : string) : bool :=
  if str_in "bh" name || str_in "bpart" name || str_in "swallow" name
  then true
  else false.

Definition task_is_stars (name : string) : bool :=
  if str_in "stars" name || str_in "spart" name then true
  else if str_in "sf_count" name then true
  else false.

Definition task_is_hydro (name : string) : bool :=
  if str_in "hydro" name then true
  else if str_in "_part" name then true
  else if str_in "density" name && negb (str_in "stars" name)
          && negb (str_in "bh" name) then true
  else if str_in "rho" name && negb (str_in "bpart" name) then true
  else if str_in "gradient" name && negb (str_in "rt_gradient" name) then true
  else if str_in "force" name && negb (str_in "grav" name) then true
  else if str_in "xv" name && negb (str_in "bpart" name) then true
  else
    let task_name :=
      [ "sort"; "ghost_in"; "ghost"; "ghost_out"; "extra_ghost";
        "cooling"; "cooling_in"; "cooling_out"; "star_formation" ] in
    if list_in name task_name then true else false.

Definition task_is_gravity (name : string) : bool :=
  if str_in "gpart" name then true
  else if str_in "grav" name then true
  else false.

Definition task_is_RT (name : string) : bool :=
  if str_in "_rt" name then true
  else if startswith name "rt_" then true
  else false.

Definition task_is_sink (name : string) : bool :=
  if str_in "sink" name then true else false.

Definition get_task_colour (taskname : string) : result string :=
  let colour := "black" in
  if task_is_black_holes taskname then getitem task_colours "black_holes"
  else if task_is_stars taskname then getitem task_colours "stars"
  else if task_is_hydro taskname then getitem task_colours "hydro"
  else if task_is_gravity taskname then getitem task_colours "gravity"
  else if task_is_RT taskname then getitem task_colours "RT"
  else if task_is_sink taskname then getitem task_colours "sink"
  else Ok colour.

End Classifier.

(* ------------------------------------------------------------------ *)
(** ** State and exceptions

    [M S A] is a computation over a state [S] that either returns or
    raises; the state reached is kept in both cases, as a file keeps what
    was written before an exception. *)

Definition M (S A : Type) : Type := S -> S * result A.

Definition ret {S A} (a : A) : M S A := fun s => (s, Ok a).

Definition bind {S A B} (m : M S A) (k : A -> M S B) : M S B :=
  fun s =>
    match m s with
    | (s', Ok a) => k a s'
    | (s', Raise e) => (s', Raise e)
    end.

Definition raise {S A} (e : exn) : M S A := fun s => (s, Raise e).

Definition lift {S A} (r : result A) : M S A := fun s => (s, r).

Declare Scope monad_scope.
Delimit Scope monad_scope with monad.
Notation "x <- m ;; k" := (bind m (fun x => k))
  (at level 61, m at next level, right associativity) : monad_scope.
Notation "m ;; k" := (bind m (fun _ => k))
  (at level 61, right associativity) : monad_scope.
Open Scope monad_scope.

(** A [for] loop threading the loop-carried variables [acc]. *)
Fixpoint for_each {S A B} (body : A -> B -> M S B) (l : list A) (acc : B)
  : M S B :=
  match l with
  | [] => ret acc
  | x :: l' => acc' <- body x acc ;; for_each body l' acc'
  end.

(** An open output file: the arguments of the [f.write] calls so far,
    oldest first. *)
Definition file := list string.
Definition IO := M file.

Definition write (txt : string) : IO unit := fun f => (app f [txt], Ok tt).

(** What a writer appends to an empty file. *)
Definition written_by {A} (m : IO A) : list string := fst (m []).
Definition outcome {A} (m : IO A) : result A := snd (m []).

(* ------------------------------------------------------------------ *)
(** ** The dependency table *)

(** A cell of a text column as [read_csv] delivers it: a string, or the
    float NaN that stands for a missing value (an empty cell, or one of
    the tokens pandas takes for missing; since pandas 2.0 the token None
    is among them). *)
Inductive cell : Type :=
| Str (s : string)
| NaN.

(** [a == b] on cells: NaN equals nothing, itself included. *)
Definition cell_eqb (a b : cell) : bool :=
  match a, b with
  | Str x, Str y => String.eqb x y
  | _, _ => false
  end.

(** [%s] applied to a cell. *)
Definition fmt_cell (c : cell) : string :=
  match c with
  | Str s => s
  | NaN => "nan"
  end.

(** One row of the DataFrame.  The flag columns are integers as read from
    the CSV file; [task_colour] is the column added by
    [set_task_colours].  The cluster columns hold None for a task outside
    every cluster, so their cells may arrive as NaN; task names are
    never empty and are kept as strings. *)
Record Row : Type := mkRow {
  task_in : string;
  task_out : string;
  implicit_in : Z;
  implicit_out : Z;
  mpi_in : Z;
  mpi_out : Z;
  cluster_in : cell;
  cluster_out : cell;
  number_link : Z;
  number_rank : Z;
  task_in_is_top : Z;
  task_in_is_hydro_super : Z;
  task_in_is_grav_super : Z;
  task_out_is_top : Z;
  task_out_is_hydro_super : Z;
  task_out_is_grav_super : Z;
  cell_has_active_task : Z;
  task_colour : string
}.

Definition DataFrame := list Row.

Definition set_colour (l : Row) (col : string) : Row :=
  mkRow (task_in l) (task_out l) (implicit_in l) (implicit_out l)
        (mpi_in l) (mpi_out l) (cluster_in l) (cluster_out l)
        (number_link l) (number_rank l)
        (task_in_is_top l) (task_in_is_hydro_super l)
        (task_in_is_grav_super l)
        (task_out_is_top l) (task_out_is_hydro_super l)
        (task_out_is_grav_super l)
        (cell_has_active_task l) col.

(** The options object returned by [argparse]. *)
Record Namespace : Type := mkNamespace {
  with_calls : bool;
  with_levels : bool;
  files : list string
}.

(** Truth value of a number: [if x:]. *)
Definition truthy (x : Z) : bool := negb (Z.eqb x 0).

(** [%s] applied to a value that is a string or [None]. *)
Definition fmt_s (v : option string) : string :=
  match v with
  | Some s => s
  | None => "None"
  end.

(** [%i] applied to an integer. *)
Definition fmt_i (n : Z) : string := NilZero.string_of_int (Z.to_int n).

(* ------------------------------------------------------------------ *)
(** ** numpy and pandas helpers *)

(** [np.unique]: the sorted distinct elements.  Python orders strings by
    code point, as [String_as_OT.compare] does. *)
Fixpoint uinsert (x : string) (l : list string) : list string :=
  match l with
  | [] => [x]
  | y :: l' =>
      match String_as_OT.compare x y with
      | Eq => y :: l'
      | Lt => x :: y :: l'
      | Gt => y :: uinsert x l'
      end
  end.

Definition np_unique (l : list string) : list string :=
  fold_right uinsert [] l.

(** The strings among a list of cells, and whether it holds a string or
    a NaN at all. *)
Definition cell_strings (cs : list cell) : list string :=
  flat_map (fun c => match c with Str s => [s] | NaN => [] end) cs.

Definition has_str (cs : list cell) : bool :=
  existsb (fun c => match c with Str _ => true | NaN => false end) cs.

Definition has_nan (cs : list cell) : bool :=
  existsb (fun c => match c with Str _ => false | NaN => true end) cs.

(** [np.unique] on the cells of text columns.  Strings alone are sorted
    and made distinct.  A column without any string is a float column,
    whose NaNs collapse into one (numpy from 1.21 on).  Strings mixed
    with NaN form an object array, and sorting it compares a string with
    a float, which raises. *)
Definition np_unique_cells (cs : list cell) : result (list cell) :=
  if has_nan cs then
    if has_str cs
    then Raise (TypeError
      "'<' not supported between instances of 'float' and 'str'")
    else Ok [NaN]
  else Ok (map Str (np_unique (cell_strings cs))).

(** [Series.max()] on an integer column; [None] stands for the NaN that
    pandas returns on an empty column. *)
Definition series_max (xs : list Z) : option Z :=
  match xs with
  | [] => None
  | x :: xs' => Some (fold_left Z.max xs' x)
  end.

(** [rank != max_rank]; a comparison with NaN is always unequal. *)
Definition ne_max (rank : Z) (max_rank : option Z) : bool :=
  match max_rank with
  | Some m => negb (Z.eqb rank m)
  | None => true
  end.

(** [s[-1]], raising [IndexError] on the empty string, and [s[:-1]]. *)
Fixpoint str_last (s : string) : result ascii :=
  match s with
  | EmptyString => Raise IndexError
  | String c EmptyString => Ok c
  | String _ s' => str_last s'
  end.

Fixpoint drop_last (s : string) : string :=
  match s with
  | EmptyString => EmptyString
  | String _ EmptyString => EmptyString
  | String c s' => String c (drop_last s')
  end.

(* ------------------------------------------------------------------ *)
(** ** The graph emitter *)

Module Writer.
Import Classifier.

Definition IND : string := "        ".

Definition get_function_calls (name : string) : option string :=
  let txt : option string :=
    if String.eqb name "ghost" then
      Some ("hydro_end_density, chemistry_end_density,<br/>" ++ NL ++ IND
            ++ "hydro_prepare_gradient, hydro_reset_gradient,<br/>" ++ NL ++ IND
            ++ "hydro_prepare_force, hydro_reset_acceleration,<br/>" ++ NL
            ++ IND
            ++ "hydro_init_part, chemistry_init_part,<br/>" ++ NL ++ IND
            ++ "hydro_has_no_neighbours, chemistry_part_has_no_neighbours"
            ++ NL ++ IND)
    else if String.eqb name "cooling" then Some "cooling_cool_part"
    else if String.eqb name "timestep" then Some "tracers_after_timestep"
    else if String.eqb name "drift_part" then
      Some ("drift_part, tracers_after_drift,<br/>" ++ NL ++ IND
            ++ "hydro_init_part, chemistry_init_part,<br/>" ++ NL ++ IND
            ++ "tracers_after_init" ++ NL ++ IND)
    else if String.eqb name "kick1" then
      Some "kick_part, kick_gpart, kick_spart"
    else if String.eqb name "kick2" then
      Some ("kick_part, kick_gpart, kick_spart,<br/>" ++ NL ++ IND
            ++ "hydro_reset_predicted_values," ++ NL ++ IND
            ++ "gravity_reset_predicted_Values,<br/>" ++ NL ++ IND
            ++ "stars_reset_predicted_values," ++ NL ++ IND)
    else if String.eqb name "end_force" then
      Some ("hydro_end_force, gravity_end_force,<br/>" ++ NL ++ IND
            ++ "stars_end_force")
    else if String.eqb name "drift_gpart" then
      Some ("drift_gpart, gravity_init_gpart,<br/>" ++ NL ++ IND
            ++ "drift_spart" ++ NL ++ IND)
    else None in
  let txt :=
    if str_in "density" name && negb (str_in "stars" name) then
      Some ("runner_iact_nonsym_chemistry, runner_iact_chemistry,<br/>"
            ++ NL ++ IND
            ++ "runner_iact_nonsym_density, runner_iact_density")
    else txt in
  let txt :=
    if str_in "force" name && negb (str_in "end" name) then
      Some "runner_iact_nonsym_density, runner_iact_density"
    else txt in
  match txt with
  | None => None
  | Some txt =>
      let pre := "<" ++ name ++ "<BR/> <Font POINT-SIZE='10'>Calls: " in
      let app := "</Font>>" in
      Some (pre ++ txt ++ app)
  end.

(** The level label built under [with_levels]. *)
Definition level_string (task_is_in_top task_is_in_hydro_super
                         task_is_in_grav_super : bool) : string :=
  let sep (levelstr : string) :=
    if Nat.ltb 0 (String.length levelstr) then levelstr ++ " / "
    else levelstr in
  let levelstr := EmptyString in
  let levelstr := if task_is_in_top then "top" else levelstr in
  let levelstr :=
    if task_is_in_hydro_super && negb task_is_in_grav_super
    then sep levelstr ++ "hydro super" else levelstr in
  let levelstr :=
    if task_is_in_grav_super && negb task_is_in_hydro_super
    then sep levelstr ++ "grav super" else levelstr in
  let levelstr :=
    if task_is_in_grav_super && task_is_in_hydro_super
    then sep levelstr ++ "super" else levelstr in
  if negb task_is_in_top && negb task_is_in_grav_super
     && negb task_is_in_hydro_super
  then "below super" else levelstr.

(** The text of one node statement, before the trailing comma is removed
    and the bracket closed. *)
Definition task_attributes (name : string) (implicit mpi : Z)
    (task_is_in_top task_is_in_hydro_super task_is_in_grav_super
     cell_has_active_task with_calls with_levels : bool)
  : result string :=
  (let txt := TAB ++ " " ++ name ++ "[" in
   let txt :=
     if negb cell_has_active_task
     then txt ++ "style=filled,fillcolor=lightpink2,"
     else if truthy implicit
          then txt ++ "style=filled,fillcolor=grey90,"
          else txt in
   let txt :=
     if truthy mpi
     then txt ++ "shape=diamond,style=filled,fillcolor=azure,"
     else txt in
   let txt :=
     if with_levels then
       let levelstr :=
         level_string task_is_in_top task_is_in_hydro_super
                      task_is_in_grav_super in
       let txt := txt ++ NL ++ TAB ++ TAB ++ "label=<" ++ NL in
       let txt :=
         txt ++ TAB ++ TAB ++ TAB ++ "<TABLE BORDER=" ++ DQ ++ "0" ++ DQ
             ++ " CELLBORDER=" ++ DQ ++ "0" ++ DQ
             ++ " CELLSPACING=" ++ DQ ++ "0" ++ DQ ++ ">" ++ NL in
       let txt :=
         txt ++ (TAB ++ TAB ++ TAB ++ TAB
                 ++ "<TR> <TD> <B> <FONT POINT-SIZE=" ++ DQ ++ "18" ++ DQ
                 ++ ">" ++ name
                 ++ " </FONT> </B> </TD> </TR> <!-- task name -->" ++ NL) in
       let txt :=
         txt ++ (TAB ++ TAB ++ TAB ++ TAB
                 ++ "<TR> <TD> <FONT POINT-SIZE=" ++ DQ ++ "18" ++ DQ
                 ++ ">" ++ levelstr
                 ++ "</FONT> </TD> </TR> <!-- task level -->" ++ NL) in
       let txt := txt ++ TAB ++ TAB ++ TAB ++ "</TABLE>" ++ NL in
       txt ++ TAB ++ TAB ++ TAB ++ ">," ++ NL ++ TAB ++ TAB
     else txt in
   try! col <- get_task_colour name;
   let txt := txt ++ "color=" ++ col ++ "," in
   let txt :=
     if with_calls then
       match get_function_calls name with
       | Some func => txt ++ "label=" ++ func ++ ","
       | None => txt
       end
     else txt in
   Ok txt)%result.

Definition write_task (name : string) (implicit mpi : Z)
    (task_is_in_top task_is_in_hydro_super task_is_in_grav_super
     cell_has_active_task with_calls with_levels : bool) : IO unit :=
  txt <- lift (task_attributes name implicit mpi task_is_in_top
                 task_is_in_hydro_super task_is_in_grav_super
                 cell_has_active_task with_calls with_levels) ;;
  (* remove extra ',' *)
  last <- lift (str_last txt) ;;
  let txt := if Ascii.eqb last "," then drop_last txt else txt in
  let txt := txt ++ "];" ++ NL in
  write txt.

(** The fixed lines that open the graph file. *)
Definition header_lines (git : option string) : list string :=
  [ "digraph task_dep {" ++ NL;
    TAB ++ " # Header" ++ NL;
    TAB ++ " label=" ++ DQ ++ "Task dependencies for SWIFT " ++ fmt_s git
        ++ DQ ++ ";" ++ NL;
    TAB ++ " compound=true;" ++ NL;
    TAB ++ " ratio=0.66;" ++ NL;
    TAB ++ " node[nodesep=0.15, fontsize=18, penwidth=3.];" ++ NL;
    TAB ++ " edge[fontsize=12, penwidth=0.5];" ++ NL;
    TAB ++ " ranksep=0.8;" ++ NL;
    NL;
    TAB ++ " # Special tasks" ++ NL ].

(** Body of the first loop of [write_header]; the loop-carried variable
    is the list [written]. *)
Definition header_in (opt : Namespace) (l : Row) (written : list string)
  : IO (list string) :=
  let ta := task_in l in
  if list_in ta written then ret written
  else
    let written := app written [ta] in
    write_task ta (implicit_in l) (mpi_in l)
               (Z.eqb (task_in_is_top l) 1)
               (Z.eqb (task_in_is_hydro_super l) 1)
               (Z.eqb (task_in_is_grav_super l) 1)
               true (with_calls opt) (with_levels opt) ;;
    ret written.

(** Body of the second loop of [write_header]. *)
Definition header_out (opt : Namespace) (l : Row) (written : list string)
  : IO (list string) :=
  let tb := task_out l in
  if list_in tb written then ret written
  else
    let written := app written [tb] in
    write_task tb (implicit_out l) (mpi_out l)
               (Z.eqb (task_out_is_top l) 1)
               (Z.eqb (task_out_is_hydro_super l) 1)
               (Z.eqb (task_out_is_grav_super l) 1)
               (Z.eqb (cell_has_active_task l) 1)
               (with_calls opt) (with_levels opt) ;;
    ret written.

Definition write_header (data : DataFrame) (git : option string)
    (opt : Namespace) : IO unit :=
  for_each (fun txt (_ : unit) => write txt) (header_lines git) tt ;;
  let written := [] in
  written <- for_each (header_in opt) data written ;;
  written <- for_each (header_out opt) data written ;;
  write NL.

Definition write_cluster (tasks : list string) (cluster : cell)
  : IO unit :=
  write (TAB ++ " subgraph cluster" ++ fmt_cell cluster ++ " {" ++ NL) ;;
  write (TAB ++ TAB ++ " label=" ++ DQ ++ DQ ++ ";" ++ NL) ;;
  write (TAB ++ TAB ++ " bgcolor=" ++ DQ ++ "grey99" ++ DQ ++ ";" ++ NL) ;;
  for_each (fun t (_ : unit) => write (TAB ++ TAB ++ " " ++ t ++ ";" ++ NL))
           tasks tt ;;
  write (TAB ++ " };" ++ NL ++ NL).

(** [data[[cluster_in, cluster_out]]] flattened row by row. *)
Definition cluster_values (data : DataFrame) : list cell :=
  flat_map (fun l => [cluster_in l; cluster_out l]) data.

Definition write_clusters (data : DataFrame) : IO unit :=
  write (TAB ++ " # Clusters" ++ NL) ;;
  clusters <- lift (np_unique_cells (cluster_values data)) ;;
  for_each
    (fun cluster (_ : unit) =>
       if cell_eqb cluster (Str "None") then ret tt
       else
         let ta := map task_in
                       (filter (fun l => cell_eqb (cluster_in l) cluster)
                               data) in
         let tb := map task_out
                       (filter (fun l => cell_eqb (cluster_out l) cluster)
                               data) in
         let tasks := app ta tb in
         let tasks := np_unique tasks in
         write_cluster tasks cluster)
    clusters tt ;;
  write NL.

(** Body of the loop of [write_dependencies]. *)
Definition dependency (max_rank : option Z) (l : Row)
    (written : list string) : IO (list string) :=
  let ta := task_in l in
  let tb := task_out l in
  let number_link := number_link l in
  let name := ta ++ "_" ++ tb in
  if list_in name written
  then raise (Exception "Found two same task dependencies")
  else
    let written := app written [name] in
    let arrow := ",color=" ++ task_colour l in
    let arrow :=
      if ne_max (number_rank l) max_rank
      then arrow ++ ",style=dashed" else arrow in
    write (TAB ++ " " ++ ta ++ "->" ++ tb ++ "[label=" ++ fmt_i number_link
               ++ arrow ++ ",fontcolor=" ++ task_colour l ++ "]" ++ NL) ;;
    ret written.

Definition write_dependencies (data : DataFrame) : IO unit :=
  write (TAB ++ " # Dependencies" ++ NL) ;;
  let written := [] in
  let max_rank := series_max (map number_rank data) in
  for_each (dependency max_rank) data written ;;
  ret tt.

Definition write_footer : IO unit := write "}".

Fixpoint set_task_colours (data : DataFrame) : result DataFrame :=
  match data with
  | [] => Ok []
  | l :: data' =>
      (try! col <- get_task_colour (task_in l);
       try! rest <- set_task_colours data';
       Ok (set_colour l col :: rest))%result
  end.

End Writer.

(* ------------------------------------------------------------------ *)
(** ** Text files *)

(** [str.isspace] on the code points below 256. *)
Definition is_space (c : ascii) : bool :=
  let n := nat_of_ascii c in
  (Nat.leb 9 n && Nat.leb n 13) || (Nat.leb 28 n && Nat.leb n 32)
  || Nat.eqb n 133 || Nat.eqb n 160.

(** [s.rstrip()]. *)
Fixpoint rstrip (s : string) : string :=
  match s with
  | EmptyString => EmptyString
  | String c s' =>
      match rstrip s' with
      | EmptyString => if is_space c then EmptyString
                       else String c EmptyString
      | r => String c r
      end
  end.

(** [s[n:]]. *)
Fixpoint slice_from (n : nat) (s : string) : string :=
  match n, s with
  | O, _ => s
  | S n', String _ s' => slice_from n' s'
  | S _, EmptyString => EmptyString
  end.

(** [s[0]]. *)
Definition item0 (s : string) : result ascii :=
  match s with
  | EmptyString => Raise IndexError
  | String c _ => Ok c
  end.

(** [readline] on a freshly opened text file with universal newlines:
    the first line with its terminator turned into a line feed, or the
    empty string when the file is empty. *)
Fixpoint readline (text : string) : string :=
  match text with
  | EmptyString => EmptyString
  | String c rest =>
      if Ascii.eqb c (ascii_of_nat 10) || Ascii.eqb c (ascii_of_nat 13)
      then NL
      else String c (readline rest)
  end.

(* ------------------------------------------------------------------ *)
(** ** Command line, version check and the driver loop *)

(** What the run does to the outside world, oldest first. *)
Inductive event : Type :=
| WriteFile (path : string) (content : file)
| Call (argv : list string)
| Print (line : string).

Definition world := list event.

Module Driver.
Import Classifier Writer.

Section Environment.

(** The file system and the libraries the script calls into:
    [os.path.exists], the text of a file opened for reading, the table
    [pandas.read_csv] builds from it, and [os.path.splitext(f)[0]]. *)
Variable path_exists : string -> bool.
Variable open_read : string -> result string.
Variable read_csv : string -> result DataFrame.
Variable splitext0 : string -> string.

(** [parse_args] from the point where [argparse] has produced its
    namespace [args]. *)
Definition parse_args (args : Namespace)
  : result (Namespace * list string) :=
  let files := files args in
  if negb (forallb path_exists files)
  then Raise (FileNotFoundError "You need to provide one file")
  else if with_calls args && with_levels args
  then Raise (ValueError "I can't run with --with-calls and"
                         " --with-levels simultaneously. Pick one!")
  else Ok (args, files).

Definition get_git_version (f : string) (git : option string)
  : result (option string) :=
  (try! text <- open_read f;
   let line := readline text in
   try! c <- item0 line;
   if negb (Ascii.eqb c "#") then Ok None
   else
     let new_git := rstrip (slice_from 2 line) in
     match git with
     | Some g =>
         if negb (String.eqb g new_git)
         then Raise (Exception "Files were not produced by the same version")
         else Ok (Some new_git)
     | None => Ok (Some new_git)
     end)%result.

Definition emit (e : event) : M world unit := fun w => (app w [e], Ok tt).

(** [with open(path, "w") as f: body]: the file holds whatever [body]
    wrote, also when [body] raises.  The path is taken to be writable. *)
Definition with_open_w {A} (path : string) (body : IO A) : M world A :=
  fun w =>
    let (content, r) := body [] in
    (app w [WriteFile path content], r).

(** One iteration of the loop over the input files.  The renderer is
    taken to be installed, so that [call] returns. *)
Definition process (args : Namespace) (f : string) : M world unit :=
  let basename := splitext0 f in
  let dot_output := basename ++ ".dot" in
  let png_output := basename ++ ".png" in
  let git : option string := None in
  data <- lift (read_csv f) ;;
  git <- lift (get_git_version f git) ;;
  data <- lift (set_task_colours data) ;;
  with_open_w dot_output
    (write_header data git args ;;
     write_clusters data ;;
     write_dependencies data ;;
     write_footer) ;;
  emit (Call ["dot"; "-Tpng"; dot_output; "-o"; png_output]) ;;
  emit (Print ("You will find the graph in " ++ png_output)) ;;
  if with_calls args then
    emit (Print
      "We recommand to use the python package xdot available on pypi:") ;;
    emit (Print ("  python3 -m xdot " ++ dot_output))
  else ret tt.

Definition main (argv : Namespace) : M world unit :=
  r <- lift (parse_args argv) ;;
  let (args, files) := r in
  for_each (fun f (_ : unit) => process args f) files tt.

End Environment.
End Driver.

(* ------------------------------------------------------------------ *)
(** ** Vocabulary of the properties *)

Module Spec.
Import Classifier Writer.

(** The line that opens the subgraph block of cluster [c]. *)
Definition subgraph_open (c : string) : string :=
  TAB ++ " subgraph cluster" ++ c ++ " {" ++ NL.


(** The subgraph block of cluster [c] listing [tasks]. *)
Definition cluster_block (tasks : list string) (c : string) : list string :=
  app [ subgraph_open c;
        TAB ++ TAB ++ " label=" ++ DQ ++ DQ ++ ";" ++ NL;
        TAB ++ TAB ++ " bgcolor=" ++ DQ ++ "grey99" ++ DQ ++ ";" ++ NL ]
      (app (map (fun t => TAB ++ TAB ++ " " ++ t ++ ";" ++ NL) tasks)
           [ TAB ++ " };" ++ NL ++ NL ]).

(** The tasks of cluster [c]: sources of the rows leaving it and targets
    of the rows entering it. *)
Definition cluster_tasks (data : DataFrame) (c : cell) : list string :=
  np_unique
    (app (map task_in (filter (fun l => cell_eqb (cluster_in l) c) data))
         (map task_out
              (filter (fun l => cell_eqb (cluster_out l) c) data))).

(** The cluster cells mix strings with missing values, which is when
    [np.unique] raises in [write_clusters]. *)
Definition mixed_clusters (data : DataFrame) : bool :=
  has_nan (cluster_values data) && has_str (cluster_values data).

(** [txt] is a node statement for the task [name]. *)
Definition node_statement (name txt : string) : Prop :=
  exists attrs, txt = TAB ++ " " ++ name ++ "[" ++ attrs ++ "];" ++ NL.

(** The edge statement of row [l], dashed or not. *)
Definition edge_text (l : Row) (dashed : bool) : string :=
  TAB ++ " " ++ task_in l ++ "->" ++ task_out l
      ++ "[label=" ++ fmt_i (number_link l)
      ++ ",color=" ++ task_colour l
      ++ (if dashed then ",style=dashed" else EmptyString)
      ++ ",fontcolor=" ++ task_colour l ++ "]" ++ NL.

(** [m] is the largest element of [xs]. *)
Definition is_maximum (m : Z) (xs : list Z) : Prop :=
  In m xs /\ Forall (fun x => (x <= m)%Z) xs.

(** The key under which [write_dependencies] remembers an edge. *)
Definition edge_key (l : Row) : string := task_in l ++ "_" ++ task_out l.

Definition duplicate_edge : exn :=
  Exception "Found two same task dependencies".

Definition version_mismatch : exn :=
  Exception "Files were not produced by the same version".

(** A row with the given endpoints, cluster cells and rank: one link,
    every flag column 0 except [cell_has_active_task], and the default
    colour. *)
Definition row_of (a b : string) (ci co : cell) (rank : Z) : Row :=
  mkRow a b 0 0 0 0 ci co 1 rank 0 0 0 0 0 0 1 "black".

(** The same with both cluster cells read as strings. *)
Definition row (a b ci co : string) (rank : Z) : Row :=
  row_of a b (Str ci) (Str co) rank.

(** The paths of the files a run has written, in order. *)
Definition written_paths (w : world) : list string :=
  flat_map (fun e => match e with
                     | WriteFile path _ => [path]
                     | _ => []
                     end) w.

(** The text of a dependency file holding the single row
    [row "a" "b" "c1" "c1" 1], without its version comment. *)
Definition csv_text : string :=
  "task_in,task_out,implicit_in,implicit_out,mpi_in,mpi_out,"
  ++ "cluster_in,cluster_out,number_link,number_rank,"
  ++ "task_in_is_top,task_in_is_hydro_super,task_in_is_grav_super,"
  ++ "task_out_is_top,task_out_is_hydro_super,task_out_is_grav_super,"
  ++ "cell_has_active_task" ++ NL
  ++ "a,b,0,0,0,0,c1,c1,1,1,0,0,0,0,0,0,1" ++ NL.

(** A file system with two such files produced by different versions,
    and [os.path.splitext] on names that end in a four-character
    extension. *)
Definition two_versions_open (f : string) : result string :=
  if String.eqb f "a.csv" then Ok ("# v1" ++ NL ++ csv_text)
  else if String.eqb f "b.csv" then Ok ("# v2" ++ NL ++ csv_text)
  else Raise (FileNotFoundError f).

Definition strip_ext (f : string) : string :=
  drop_last (drop_last (drop_last (drop_last f))).

(** A file system with deps.csv, which starts with the column header
    and has no version comment, and the empty file e.csv. *)
Definition no_comment_open (f : string) : result string :=
  if String.eqb f "deps.csv" then Ok csv_text
  else if String.eqb f "e.csv" then Ok EmptyString
  else Raise (FileNotFoundError f).

(** What [read_csv] makes of the files above: the one row of a.csv,
    b.csv and deps.csv, and the error pandas raises on an empty file. *)
Definition one_row_csv (f : string) : result DataFrame :=
  if list_in f ["a.csv"; "b.csv"; "deps.csv"]
  then Ok [row "a" "b" "c1" "c1" 1]
  else if String.eqb f "e.csv"
  then Raise (OtherError "EmptyDataError: No columns to parse from file")
  else Raise (FileNotFoundError f).

End Spec.

(* ------------------------------------------------------------------ *)
(** * Properties *)

(** ** Strings *)

Section StringFacts.

Lemma str_app_assoc (a b c : string) : (a ++ b) ++ c = a ++ b ++ c.
Proof. induction a as [|x a IH]; simpl; [reflexivity | now rewrite IH]. Qed.

Lemma str_app_nil_r (a : string) : a ++ EmptyString = a.
Proof. induction a as [|x a IH]; simpl; [reflexivity | now rewrite IH]. Qed.

Lemma str_app_length (a b : string) :
  String.length (a ++ b) = String.length a + String.length b.
Proof. induction a as [|x a IH]; simpl; [reflexivity | now rewrite IH]. Qed.





Lemma prefix_iff (p s : string) :
  String.prefix p s = true <-> exists t, s = p ++ t.
Proof.
  revert s; induction p as [|x p IH]; intros s; simpl.
  - destruct s; split; intros _; try reflexivity; eexists; reflexivity.
  - destruct s as [|y s]; simpl.
    + split; [discriminate | intros [t Ht]; discriminate].
    + destruct (ascii_dec x y) as [->|Hxy].
      * rewrite IH. split; intros [t Ht]; exists t.
        -- now rewrite Ht.
        -- now injection Ht.
      * split; [discriminate|].
        intros [t Ht]. injection Ht as Hy _. congruence.
Qed.

(** [str_in] decides substring occurrence. *)
Lemma str_in_iff (sub s : string) :
  str_in sub s = true <-> occurs_in sub s.
Proof.
  unfold occurs_in.
  induction s as [|y s IH]; cbn [str_in].
  - rewrite orb_false_r, prefix_iff. split.
    + intros [t Ht]. exists EmptyString, t. exact Ht.
    + intros [pre [post H]]. destruct pre; simpl in H.
      * now exists post.
      * discriminate.
  - rewrite orb_true_iff, IH, prefix_iff. split.
    + intros [[t Ht] | [pre [post H]]].
      * exists EmptyString, t. exact Ht.
      * exists (String y pre), post. simpl. now rewrite H.
    + intros [pre [post H]]. destruct pre as [|z pre]; simpl in H.
      * left. now exists post.
      * right. injection H as _ H. now exists pre, post.
Qed.

Lemma list_in_iff (x : string) (l : list string) :
  list_in x l = true <-> In x l.
Proof.
  unfold list_in. rewrite existsb_exists. split.
  - intros [y [Hy Heq]]. apply String.eqb_eq in Heq. now subst.
  - intros H. exists x. split; [exact H | apply String.eqb_refl].
Qed.

Lemma list_in_false_iff (x : string) (l : list string) :
  list_in x l = false <-> ~ In x l.
Proof.
  rewrite <- list_in_iff. destruct (list_in x l); split; congruence.
Qed.

End StringFacts.

(** ** The task classifier *)

Section ClassifierFacts.
Import Classifier.

Lemma black_holes_iff (name : string) :
  task_is_black_holes name = true
  <-> occurs_in "bh" name \/ occurs_in "bpart" name
      \/ occurs_in "swallow" name.
Proof.
  unfold task_is_black_holes.
  rewrite <- !str_in_iff.
  destruct (str_in "bh" name), (str_in "bpart" name),
           (str_in "swallow" name); simpl; intuition congruence.
Qed.

Lemma gravity_iff (name : string) :
  task_is_gravity name = true
  <-> occurs_in "grav" name \/ occurs_in "gpart" name.
Proof.
  unfold task_is_gravity.
  rewrite <- !str_in_iff.
  destruct (str_in "gpart" name), (str_in "grav" name);
    simpl; intuition congruence.
Qed.

(** Every lookup made by the classifier hits a key of the table. *)
Lemma get_task_colour_total (name : string) :
  exists c, get_task_colour name = Ok c.
Proof.
  unfold get_task_colour.
  destruct (task_is_black_holes name); [eexists; reflexivity|].
  destruct (task_is_stars name); [eexists; reflexivity|].
  destruct (task_is_hydro name); [eexists; reflexivity|].
  destruct (task_is_gravity name); [eexists; reflexivity|].
  destruct (task_is_RT name); [eexists; reflexivity|].
  destruct (task_is_sink name); eexists; reflexivity.
Qed.

(** C4: a task name containing bh, bpart or swallow is classified as
    black holes, whose colour is forestgreen, whatever else it
    contains. *)
Theorem black_holes_win (name : string) :
  occurs_in "bh" name \/ occurs_in "bpart" name \/ occurs_in "swallow" name ->
  get_task_colour name = getitem task_colours "black_holes"
  /\ get_task_colour name = Ok "forestgreen".
Proof.
  intros H. apply black_holes_iff in H.
  unfold get_task_colour. rewrite H. split; reflexivity.
Qed.

Lemma black_holes_win_witness :
  get_task_colour "stars_bh_grav_density"
  = getitem task_colours "black_holes"
  /\ get_task_colour "stars_bh_grav_density" = Ok "forestgreen".
Proof.
  apply (black_holes_win "stars_bh_grav_density").
  left. exists "stars_", "_grav_density". reflexivity.
Defined.

(** C5: a task name containing grav or gpart that is not claimed by the
    black-hole, star or hydro predicates is classified as gravity, whose
    colour is red3. *)
Theorem gravity_after_hydro (name : string) :
  occurs_in "grav" name \/ occurs_in "gpart" name ->
  task_is_black_holes name = false ->
  task_is_stars name = false ->
  task_is_hydro name = false ->
  get_task_colour name = getitem task_colours "gravity"
  /\ get_task_colour name = Ok "red3".
Proof.
  intros H Hbh Hst Hhy. apply gravity_iff in H.
  unfold get_task_colour. rewrite Hbh, Hst, Hhy, H. split; reflexivity.
Qed.

Lemma gravity_after_hydro_witness :
  get_task_colour "grav_long_range" = getitem task_colours "gravity"
  /\ get_task_colour "grav_long_range" = Ok "red3".
Proof.
  apply (gravity_after_hydro "grav_long_range");
    [ left; exists EmptyString, "_long_range"; reflexivity
    | reflexivity | reflexivity | reflexivity ].
Defined.

(** C8: the classifier returns a colour for every task name and never
    raises; a name matched by none of the six subsystem predicates gets
    the default colour black. *)
Theorem default_is_black (name : string) :
  task_is_black_holes name = false ->
  task_is_stars name = false ->
  task_is_hydro name = false ->
  task_is_gravity name = false ->
  task_is_RT name = false ->
  task_is_sink name = false ->
  get_task_colour name = Ok "black"
  /\ forall other, exists c, get_task_colour other = Ok c.
Proof.
  intros H1 H2 H3 H4 H5 H6. split.
  - unfold get_task_colour. now rewrite H1, H2, H3, H4, H5, H6.
  - apply get_task_colour_total.
Qed.

Lemma default_is_black_witness :
  get_task_colour "kick1" = Ok "black"
  /\ forall other, exists c, get_task_colour other = Ok c.
Proof.
  apply (default_is_black "kick1"); reflexivity.
Defined.

End ClassifierFacts.

(** ** Command-line flags *)

Section FlagFacts.
Import Driver.

Variable path_exists : string -> bool.

(** C7: with both --with-calls and --with-levels set, [parse_args]
    raises: the ValueError of the exclusion test when every file exists,
    the FileNotFoundError of the earlier test otherwise.  With at most one
    of the two flags set it never raises that ValueError. *)
Theorem flags_exclusive (fs : list string) :
  (exists e, parse_args path_exists (mkNamespace true true fs) = Raise e)
  /\ parse_args path_exists (mkNamespace true true fs)
     = Raise (if forallb path_exists fs
              then ValueError "I can't run with --with-calls and"
                              " --with-levels simultaneously. Pick one!"
              else FileNotFoundError "You need to provide one file")
  /\ (forall m1 m2,
        parse_args path_exists (mkNamespace true false fs)
        <> Raise (ValueError m1 m2))
  /\ (forall m1 m2,
        parse_args path_exists (mkNamespace false true fs)
        <> Raise (ValueError m1 m2))
  /\ (forall m1 m2,
        parse_args path_exists (mkNamespace false false fs)
        <> Raise (ValueError m1 m2)).
Proof.
  unfold parse_args; simpl.
  destruct (forallb path_exists fs); simpl;
    repeat split; try (eexists; reflexivity); intros; discriminate.
Qed.

End FlagFacts.

(** ** Running writers *)

Section MonadFacts.

(** Writing the elements of a list one after the other. *)
Lemma run_write_all (lines : list string) (f : file) :
  for_each (fun txt (_ : unit) => write txt) lines tt f
  = (app f lines, Ok tt).
Proof.
  revert f; induction lines as [|x lines IH]; intros f; simpl.
  - unfold ret. now rewrite app_nil_r.
  - unfold bind, write. rewrite IH. now rewrite <- app_assoc.
Qed.

End MonadFacts.

(** ** The header writer *)

Section NodeFacts.
Import Classifier Writer Spec.

Lemma has_prefix_refl (p : string) : exists r, p = p ++ r.
Proof. exists EmptyString. now rewrite str_app_nil_r. Qed.

Lemma has_prefix_app (p a x : string) :
  (exists r, a = p ++ r) -> exists r, a ++ x = p ++ r.
Proof. intros [r ->]. exists (r ++ x). apply str_app_assoc. Qed.

Lemma ends_comma (a b : string) : exists y, a ++ b ++ "," = y ++ ",".
Proof. exists (a ++ b). now rewrite str_app_assoc. Qed.

Lemma prefix_and_comma (p a b : string) :
  (exists r, a = p ++ r) -> (exists y, b = y ++ ",") ->
  exists mid, a ++ b = (p ++ mid) ++ ",".
Proof.
  intros [r ->] [y ->]. exists (r ++ y). now rewrite !str_app_assoc.
Qed.

Lemma str_last_snoc (s : string) (c : ascii) :
  str_last (s ++ String c EmptyString) = Ok c.
Proof.
  induction s as [|x s IH]; simpl; [reflexivity|].
  rewrite IH. destruct s; reflexivity.
Qed.

Lemma drop_last_snoc (s : string) (c : ascii) :
  drop_last (s ++ String c EmptyString) = s.
Proof.
  induction s as [|x s IH]; simpl; [reflexivity|].
  rewrite IH. destruct s; reflexivity.
Qed.

Ltac prefix_chain :=
  repeat first [ apply has_prefix_refl | apply has_prefix_app ].

(** The attribute text always starts with the task name and an opening
    bracket, and always ends with a comma. *)
Lemma task_attributes_shape (name : string) (implicit mpi : Z)
    (top hs gs active calls levels : bool) :
  exists mid,
    task_attributes name implicit mpi top hs gs active calls levels
    = Ok (((TAB ++ " " ++ name ++ "[") ++ mid) ++ ",").
Proof.
  unfold task_attributes. cbv zeta.
  destruct (get_task_colour_total name) as [col ->].
  cbv beta iota delta [rbind].
  assert (Hok : forall x p, (exists mid, x = (p ++ mid) ++ ",") ->
                exists mid, Ok x = Ok ((p ++ mid) ++ ",")).
  { intros x p [mid ->]. now exists mid. }
  apply Hok.
  destruct active, (truthy implicit), (truthy mpi), levels, calls;
    cbv beta iota delta [negb];
    try destruct (get_function_calls name);
    (apply prefix_and_comma; [prefix_chain | apply ends_comma]).
Qed.

(** [write_task] appends exactly one chunk, a node statement for the task
    it is given, and never raises. *)
Lemma run_write_task (name : string) (implicit mpi : Z)
    (top hs gs active calls levels : bool) (f : file) :
  exists txt,
    write_task name implicit mpi top hs gs active calls levels f
    = (app f [txt], Ok tt)
    /\ node_statement name txt.
Proof.
  destruct (task_attributes_shape name implicit mpi top hs gs active
              calls levels) as [mid H].
  unfold write_task, bind, lift. rewrite H.
  change "," with (String "," EmptyString).
  rewrite str_last_snoc, Ascii.eqb_refl, drop_last_snoc.
  eexists. split; [reflexivity|].
  exists mid. now rewrite !str_app_assoc.
Qed.

Section KeyedLoop.

Variable key : Row -> string.
Variable emit : Row -> IO unit.
Hypothesis emit_node :
  forall l f, exists txt,
    emit l f = (app f [txt], Ok tt) /\ node_statement (key l) txt.

(** A loop that skips the rows whose key was already written emits one
    node statement per new key. *)
Lemma keyed_loop (data : DataFrame) :
  forall (written : list string) (f : file),
    NoDup written ->
    exists names texts,
      for_each (fun l written =>
                  if list_in (key l) written then ret written
                  else emit l ;; ret (app written [key l]))
               data written f
      = (app f texts, Ok (app written names))
      /\ Forall2 node_statement names texts
      /\ NoDup (app written names)
      /\ forall n, In n (app written names)
                   <-> In n written \/ In n (map key data).
Proof.
  induction data as [|l data IH]; intros written f Hnd.
  - exists [], []. simpl. unfold ret. rewrite !app_nil_r.
    repeat split; auto; tauto.
  - cbn [for_each]. unfold bind at 1.
    destruct (list_in (key l) written) eqn:Hin.
    + unfold ret at 1.
      destruct (IH written f Hnd) as (names & texts & Hrun & Hf2 & Hnd' & Hin').
      exists names, texts. repeat split; auto.
      * intros H. apply Hin' in H. cbn [map In]. tauto.
      * intros H. apply Hin'. cbn [map In] in H.
        apply list_in_iff in Hin.
        destruct H as [H | [H | H]]; subst; auto.
    + apply list_in_false_iff in Hin.
      unfold bind at 1.
      destruct (emit_node l f) as (txt & -> & Hnode).
      unfold ret at 1.
      assert (Hnd1 : NoDup (app written [key l])).
      { apply NoDup_app; auto.
        - repeat constructor; auto.
        - intros x Hx [<- | []]. contradiction. }
      destruct (IH (app written [key l]) (app f [txt]) Hnd1)
        as (names & texts & Hrun & Hf2 & Hnd' & Hin').
      exists (key l :: names), (txt :: texts).
      rewrite <- !app_assoc in *. cbn [app] in *.
      repeat split; auto.
      * intros H. apply Hin' in H. rewrite in_app_iff in H.
        cbn [map In] in *. tauto.
      * intros H. apply Hin'. rewrite in_app_iff.
        cbn [map In] in *. tauto.
Qed.

End KeyedLoop.

(** The whole of [write_header], run on any open file. *)
Lemma run_write_header (data : DataFrame) (git : option string)
    (opt : Namespace) (f : file) :
  exists names texts,
    write_header data git opt f
    = (app f (app (header_lines git) (app texts [NL])), Ok tt)
    /\ Forall2 node_statement names texts
    /\ NoDup names
    /\ forall n, In n names
                 <-> In n (map task_in data) \/ In n (map task_out data).
Proof.
  unfold write_header.
  unfold bind at 1. rewrite run_write_all.
  unfold bind at 1.
  destruct (keyed_loop task_in
              (fun l => write_task (task_in l) (implicit_in l) (mpi_in l)
                          (Z.eqb (task_in_is_top l) 1)
                          (Z.eqb (task_in_is_hydro_super l) 1)
                          (Z.eqb (task_in_is_grav_super l) 1)
                          true (with_calls opt) (with_levels opt))
              (fun l f => run_write_task _ _ _ _ _ _ _ _ _ f)
              data [] (app f (header_lines git)) (NoDup_nil _))
    as (names1 & texts1 & Hrun1 & Hf1 & Hnd1 & Hin1).
  change (for_each (header_in opt) data [] (app f (header_lines git))
          = (app (app f (header_lines git)) texts1, Ok (app [] names1)))
    in Hrun1.
  rewrite Hrun1. cbn [app] in *.
  unfold bind at 1.
  destruct (keyed_loop task_out
              (fun l => write_task (task_out l) (implicit_out l) (mpi_out l)
                          (Z.eqb (task_out_is_top l) 1)
                          (Z.eqb (task_out_is_hydro_super l) 1)
                          (Z.eqb (task_out_is_grav_super l) 1)
                          (Z.eqb (cell_has_active_task l) 1)
                          (with_calls opt) (with_levels opt))
              (fun l f => run_write_task _ _ _ _ _ _ _ _ _ f)
              data names1 (app (app f (header_lines git)) texts1) Hnd1)
    as (names2 & texts2 & Hrun2 & Hf2 & Hnd2 & Hin2).
  change (for_each (header_out opt) data names1
                   (app (app f (header_lines git)) texts1)
          = (app (app (app f (header_lines git)) texts1) texts2,
             Ok (app names1 names2)))
    in Hrun2.
  rewrite Hrun2. unfold write.
  exists (app names1 names2), (app texts1 texts2).
  repeat split.
  - now rewrite <- !app_assoc.
  - now apply Forall2_app.
  - exact Hnd2.
  - intros H. apply Hin2 in H. rewrite Hin1 in H. cbn [In] in H. tauto.
  - intros H. apply Hin2. rewrite Hin1. cbn [In]. tauto.
Qed.

(** C9: the header writer emits, after its fixed opening lines, exactly
    one node statement per distinct task name of the task_in and task_out
    columns: the names declared are pairwise distinct and are exactly the
    names that occur in either column. *)
Theorem one_node_per_task (data : DataFrame) (git : option string)
    (opt : Namespace) :
  exists names texts,
    written_by (write_header data git opt)
    = app (header_lines git) (app texts [NL])
    /\ outcome (write_header data git opt) = Ok tt
    /\ Forall2 node_statement names texts
    /\ NoDup names
    /\ forall n, In n names
                 <-> In n (map task_in data) \/ In n (map task_out data).
Proof.
  destruct (run_write_header data git opt [])
    as (names & texts & Hrun & Hrest).
  exists names, texts. unfold written_by, outcome. rewrite Hrun.
  cbn [fst snd app]. auto.
Qed.

End NodeFacts.

(** ** Sorted distinct values *)

Section UniqueFacts.

Lemma uinsert_In (x z : string) (l : list string) :
  In z (uinsert x l) <-> z = x \/ In z l.
Proof.
  induction l as [|y l IH]; simpl.
  - intuition.
  - destruct (String_as_OT.compare_spec x y) as [Heq | Hlt | Hgt]; simpl.
    + subst. intuition congruence.
    + intuition congruence.
    + rewrite IH. intuition congruence.
Qed.

Lemma np_unique_In (z : string) (l : list string) :
  In z (np_unique l) <-> In z l.
Proof.
  unfold np_unique. induction l as [|x l IH]; simpl.
  - tauto.
  - rewrite uinsert_In, IH. intuition.
Qed.

Lemma uinsert_sorted (x : string) (l : list string) :
  StronglySorted String_as_OT.lt l ->
  StronglySorted String_as_OT.lt (uinsert x l).
Proof.
  induction 1 as [|y l Hs IH Hall]; simpl.
  - repeat constructor.
  - destruct (String_as_OT.compare_spec x y) as [Heq | Hlt | Hgt].
    + now constructor.
    + constructor; [now constructor|].
      constructor; [exact Hlt|].
      eapply Forall_impl; [|exact Hall].
      intros a Ha. now transitivity y.
    + constructor; [exact IH|].
      apply Forall_forall. intros a Ha.
      apply uinsert_In in Ha. destruct Ha as [-> | Ha]; [exact Hgt|].
      rewrite Forall_forall in Hall. now apply Hall.
Qed.

Lemma np_unique_sorted (l : list string) :
  StronglySorted String_as_OT.lt (np_unique l).
Proof.
  unfold np_unique. induction l as [|x l IH]; simpl.
  - constructor.
  - now apply uinsert_sorted.
Qed.



End UniqueFacts.

(** ** The cluster writer *)

Section ClusterFacts.
Import Writer Spec.

Lemma run_write_map (g : string -> string) (xs : list string) (f : file) :
  for_each (fun t (_ : unit) => write (g t)) xs tt f
  = (app f (map g xs), Ok tt).
Proof.
  revert f; induction xs as [|x xs IH]; intros f; simpl.
  - unfold ret. now rewrite app_nil_r.
  - unfold bind, write. rewrite IH. now rewrite <- app_assoc.
Qed.

Lemma run_write_cluster (tasks : list string) (c : cell) (f : file) :
  write_cluster tasks c f
  = (app f (cluster_block tasks (fmt_cell c)), Ok tt).
Proof.
  unfold write_cluster, cluster_block, subgraph_open.
  unfold bind at 1. unfold write at 1.
  unfold bind at 1. unfold write at 1.
  unfold bind at 1. unfold write at 1.
  unfold bind at 1.
  rewrite (run_write_map (fun t => TAB ++ TAB ++ " " ++ t ++ ";" ++ NL)).
  unfold write. rewrite <- !app_assoc. reflexivity.
Qed.

Lemma run_cluster_loop (data : DataFrame) (clusters : list cell) :
  forall f,
    for_each
      (fun cluster (_ : unit) =>
         if cell_eqb cluster (Str "None") then ret tt
         else
           write_cluster
             (np_unique
                (app (map task_in
                          (filter (fun l => cell_eqb (cluster_in l) cluster)
                                  data))
                     (map task_out
                          (filter (fun l => cell_eqb (cluster_out l) cluster)
                                  data))))
             cluster)
      clusters tt f
    = (app f (List.concat
                (map (fun c => cluster_block (cluster_tasks data c)
                                             (fmt_cell c))
                     (filter (fun c => negb (cell_eqb c (Str "None")))
                             clusters))),
       Ok tt).
Proof.
  induction clusters as [|c clusters IH]; intros f; cbn [for_each].
  - unfold ret. cbn. now rewrite app_nil_r.
  - unfold bind at 1. cbn [filter].
    destruct (cell_eqb c (Str "None")); cbn [negb].
    + unfold ret at 1. apply IH.
    + rewrite run_write_cluster, IH. cbn [map List.concat].
      fold (cluster_tasks data c). now rewrite <- !app_assoc.
Qed.

(** The whole of [write_clusters], run on any open file: when
    [np.unique] raises, only the comment line has been written. *)
Lemma run_write_clusters (data : DataFrame) (f : file) :
  write_clusters data f
  = match np_unique_cells (cluster_values data) with
    | Ok clusters =>
        (app f
           (app [TAB ++ " # Clusters" ++ NL]
              (app (List.concat
                      (map (fun c => cluster_block (cluster_tasks data c)
                                                   (fmt_cell c))
                           (filter (fun c => negb (cell_eqb c (Str "None")))
                                   clusters)))
                   [NL])),
         Ok tt)
    | Raise e => (app f [TAB ++ " # Clusters" ++ NL], Raise e)
    end.
Proof.
  unfold write_clusters. unfold bind at 1. unfold write at 1.
  unfold bind at 1. unfold lift at 1.
  destruct (np_unique_cells (cluster_values data)) as [clusters|e];
    [|reflexivity].
  unfold bind at 1.
  rewrite (run_cluster_loop data). unfold write.
  now rewrite <- !app_assoc.
Qed.



(** The blocks of a list of string cells, read as strings. *)
Lemma string_blocks (data : DataFrame) (l : list string) :
  map (fun c => cluster_block (cluster_tasks data c) (fmt_cell c))
      (filter (fun c => negb (cell_eqb c (Str "None"))) (map Str l))
  = map (fun s => cluster_block (cluster_tasks data (Str s)) s)
        (filter (fun s => negb (String.eqb s "None")) l).
Proof.
  induction l as [|s l IH]; [reflexivity|].
  cbn [map filter cell_eqb].
  destruct (String.eqb s "None"); cbn [negb map fmt_cell];
    now rewrite IH.
Qed.





Lemma np_unique_cells_raise (cs : list cell) (e : exn) :
  np_unique_cells cs = Raise e ->
  has_nan cs && has_str cs = true
  /\ e = TypeError
          "'<' not supported between instances of 'float' and 'str'".
Proof.
  unfold np_unique_cells.
  destruct (has_nan cs), (has_str cs); try discriminate.
  intros H. injection H as <-. auto.
Qed.

Lemma np_unique_cells_mixed (cs : list cell) :
  has_nan cs && has_str cs = true ->
  np_unique_cells cs
  = Raise (TypeError
             "'<' not supported between instances of 'float' and 'str'").
Proof.
  unfold np_unique_cells.
  destruct (has_nan cs), (has_str cs); try discriminate. reflexivity.
Qed.

Lemma set_task_colours_clusters (data data' : DataFrame) :
  set_task_colours data = Ok data' ->
  cluster_values data' = cluster_values data.
Proof.
  revert data'. induction data as [|l data IH]; intros data'; simpl.
  - intros H. now injection H as <-.
  - destruct (Classifier.get_task_colour (task_in l)) as [col|e];
      cbn [rbind]; [|discriminate].
    destruct (set_task_colours data) as [rest|e]; cbn [rbind];
      [|discriminate].
    intros H. injection H as <-.
    unfold cluster_values in *. cbn [flat_map]. now rewrite (IH rest).
Qed.




End ClusterFacts.

(** ** The dependency writer *)

Section DependencyFacts.
Import Writer Spec.

Lemma fold_max_spec (xs : list Z) :
  forall a,
    (a <= fold_left Z.max xs a)%Z
    /\ Forall (fun x => (x <= fold_left Z.max xs a)%Z) xs
    /\ (fold_left Z.max xs a = a \/ In (fold_left Z.max xs a) xs).
Proof.
  induction xs as [|x xs IH]; intros a; simpl.
  - repeat split; auto. lia.
  - destruct (IH (Z.max a x)) as (Hle & Hall & Hin).
    repeat split.
    + lia.
    + constructor; [lia | exact Hall].
    + destruct Hin as [Heq | Hin]; [|now right; right].
      rewrite Heq. destruct (Z.max_spec a x) as [[_ ->] | [_ ->]]; auto.
Qed.

(** On a column with at least one entry [Series.max] is the maximum. *)
Lemma series_max_is_maximum (xs : list Z) (m : Z) :
  is_maximum m xs -> series_max xs = Some m.
Proof.
  intros [Hin Hall]. destruct xs as [|x xs]; [contradiction|].
  simpl. f_equal.
  destruct (fold_max_spec xs x) as (Hle & Hall' & Hwit).
  rewrite Forall_forall in Hall.
  assert (Hm : (fold_left Z.max xs x <= m)%Z).
  { apply Hall. destruct Hwit as [-> | Hwit]; [now left | now right]. }
  assert (Hm' : (m <= fold_left Z.max xs x)%Z).
  { destruct Hin as [<- | Hin]; [exact Hle|].
    rewrite Forall_forall in Hall'. now apply Hall'. }
  lia.
Qed.

(** The text written for a row is its edge statement, dashed exactly
    when the rank test succeeds. *)
Lemma dependency_text (max_rank : option Z) (l : Row) :
  TAB ++ " " ++ task_in l ++ "->" ++ task_out l ++ "[label="
      ++ fmt_i (number_link l)
      ++ (if ne_max (number_rank l) max_rank
          then (",color=" ++ task_colour l) ++ ",style=dashed"
          else ",color=" ++ task_colour l)
      ++ ",fontcolor=" ++ task_colour l ++ "]" ++ NL
  = edge_text l (ne_max (number_rank l) max_rank).
Proof.
  unfold edge_text.
  destruct (ne_max (number_rank l) max_rank);
    rewrite ?str_app_assoc; reflexivity.
Qed.

Lemma dashed_differs (l : Row) : edge_text l true <> edge_text l false.
Proof.
  intros H. apply (f_equal String.length) in H.
  unfold edge_text in H. rewrite !str_app_length in H.
  simpl in H. lia.
Qed.

Lemma key_seen_twice (written rest : list string) (key : string) :
  In key written -> ~ NoDup (app written (key :: rest)).
Proof.
  intros Hin Hnd. apply NoDup_remove_2 in Hnd.
  apply Hnd, in_or_app. now left.
Qed.

(** The loop writes the edges of the rows before the first repeated key
    and raises there, or writes them all when no key repeats. *)
Lemma run_dependency_loop (max_rank : option Z) (data : DataFrame) :
  forall (written : list string) (f : file),
    NoDup written ->
    exists k r,
      for_each (dependency max_rank) data written f
      = (app f (map (fun l => edge_text l (ne_max (number_rank l) max_rank))
                    (firstn k data)), r)
      /\ ((k = List.length data
           /\ r = Ok (app written (map edge_key data))
           /\ NoDup (app written (map edge_key data)))
          \/ (k < List.length data
              /\ r = Raise duplicate_edge
              /\ ~ NoDup (app written (map edge_key data)))).
Proof.
  induction data as [|l data IH]; intros written f Hnd.
  - exists 0, (Ok written). cbn. unfold ret. rewrite !app_nil_r.
    split; [reflexivity | left; auto].
  - cbn [for_each]. unfold bind at 1. unfold dependency at 1. cbv zeta.
    fold (edge_key l).
    destruct (list_in (edge_key l) written) eqn:Hin.
    + exists 0, (Raise duplicate_edge). cbn [firstn map].
      unfold raise. rewrite app_nil_r.
      split; [reflexivity | right]. cbn [List.length map].
      repeat split; [lia|].
      apply key_seen_twice. now apply list_in_iff.
    + apply list_in_false_iff in Hin.
      unfold bind at 1. unfold write at 1. unfold ret at 1.
      rewrite dependency_text.
      assert (Hnd1 : NoDup (app written [edge_key l])).
      { apply NoDup_app; auto.
        - repeat constructor; auto.
        - intros x Hx [<- | []]. contradiction. }
      destruct (IH (app written [edge_key l])
                   (app f [edge_text l (ne_max (number_rank l) max_rank)])
                   Hnd1) as (k & r & Hrun & Hcase).
      exists (S k), r. rewrite Hrun. cbn [firstn map List.length].
      rewrite <- !app_assoc in *. cbn [app] in *.
      split; [reflexivity|].
      destruct Hcase as [(Hk & Hr & Hn) | (Hk & Hr & Hn)];
        [left | right]; repeat split; auto; lia.
Qed.

(** The whole of [write_dependencies], run on any open file. *)
Lemma run_write_dependencies (data : DataFrame) (f : file) :
  exists k r,
    write_dependencies data f
    = (app f ((TAB ++ " # Dependencies" ++ NL)
              :: map (fun l =>
                        edge_text l
                          (ne_max (number_rank l)
                                  (series_max (map number_rank data))))
                     (firstn k data)), r)
    /\ ((k = List.length data /\ r = Ok tt /\ NoDup (map edge_key data))
        \/ (k < List.length data /\ r = Raise duplicate_edge
            /\ ~ NoDup (map edge_key data))).
Proof.
  unfold write_dependencies. unfold bind at 1. unfold write at 1.
  cbv zeta. unfold bind at 1.
  destruct (run_dependency_loop (series_max (map number_rank data)) data
              [] (app f [TAB ++ " # Dependencies" ++ NL]) (NoDup_nil _))
    as (k & r & Hrun & Hcase).
  rewrite Hrun. cbn [app] in Hcase.
  destruct Hcase as [(Hk & -> & Hn) | (Hk & -> & Hn)].
  - exists k, (Ok tt). unfold ret. rewrite <- !app_assoc.
    split; [reflexivity | left; auto].
  - exists k, (Raise duplicate_edge). rewrite <- !app_assoc.
    split; [reflexivity | right; auto].
Qed.

(** The writer succeeds exactly when no edge key repeats, and otherwise
    raises the duplicate-edge exception. *)
Lemma dependencies_outcome (data : DataFrame) :
  (NoDup (map edge_key data)
   /\ outcome (write_dependencies data) = Ok tt)
  \/ (~ NoDup (map edge_key data)
      /\ outcome (write_dependencies data) = Raise duplicate_edge).
Proof.
  destruct (run_write_dependencies data []) as (k & r & Hrun & Hcase).
  unfold outcome. rewrite Hrun. cbn [snd].
  destruct Hcase as [(_ & -> & Hn) | (_ & -> & Hn)]; auto.
Qed.

(** Two rows with the same endpoints make the writer raise. *)
Lemma repeated_pair_raises (data : DataFrame) (i j : nat) (l1 l2 : Row) :
  i <> j ->
  nth_error data i = Some l1 ->
  nth_error data j = Some l2 ->
  task_in l1 = task_in l2 ->
  task_out l1 = task_out l2 ->
  outcome (write_dependencies data) = Raise duplicate_edge.
Proof.
  intros Hij H1 H2 Hin Hout.
  destruct (dependencies_outcome data) as [[Hnd _] | [_ H]]; [|exact H].
  exfalso. apply Hij.
  rewrite NoDup_nth_error in Hnd. apply Hnd.
  - rewrite length_map. apply nth_error_Some. now rewrite H1.
  - rewrite !nth_error_map, H1, H2. cbn. unfold edge_key.
    now rewrite Hin, Hout.
Qed.

(** C6: when the table has a maximum rank [m], the dependency writer
    writes, for each row it reaches, the edge statement of that row,
    dashed if and only if the rank of the row differs from [m]; it
    reaches every row unless an edge key repeats.  The dashed and the
    plain statement of a row are different texts. *)
Theorem dashed_iff_not_max (data : DataFrame) (m : Z) :
  is_maximum m (map number_rank data) ->
  exists k,
    written_by (write_dependencies data)
    = (TAB ++ " # Dependencies" ++ NL)
      :: map (fun l => edge_text l (negb (Z.eqb (number_rank l) m)))
             (firstn k data)
    /\ k <= List.length data
    /\ (NoDup (map edge_key data) ->
        k = List.length data /\ outcome (write_dependencies data) = Ok tt)
    /\ forall l, edge_text l true <> edge_text l false.
Proof.
  intros Hmax. apply series_max_is_maximum in Hmax.
  destruct (run_write_dependencies data []) as (k & r & Hrun & Hcase).
  rewrite Hmax in Hrun. cbn [ne_max app] in Hrun.
  exists k. unfold written_by, outcome. rewrite Hrun. cbn [fst snd].
  repeat split.
  - destruct Hcase as [(Hk & _) | (Hk & _)]; lia.
  - destruct Hcase as [(Hk & _) | (_ & _ & Hn)]; [exact Hk | contradiction].
  - destruct Hcase as [(_ & Hr & _) | (_ & _ & Hn)];
      [exact Hr | contradiction].
  - apply dashed_differs.
Qed.

Lemma dashed_iff_not_max_witness :
  let data := [ row "a" "b" "None" "None" 1;
                row "b" "c" "None" "None" 2;
                row "c" "d" "None" "None" 3 ] in
  exists k,
    written_by (write_dependencies data)
    = (TAB ++ " # Dependencies" ++ NL)
      :: map (fun l => edge_text l (negb (Z.eqb (number_rank l) 3)))
             (firstn k data)
    /\ k <= List.length data
    /\ (NoDup (map edge_key data) ->
        k = List.length data /\ outcome (write_dependencies data) = Ok tt)
    /\ forall l, edge_text l true <> edge_text l false.
Proof.
  intros data. apply (dashed_iff_not_max data 3).
  split; [simpl; auto | repeat constructor; simpl; lia].
Defined.

(** With ranks 1, 2 and 3 the first two edges are dashed and the third
    is not. *)
Example ranks_123 :
  written_by
    (write_dependencies [ row "a" "b" "None" "None" 1;
                          row "b" "c" "None" "None" 2;
                          row "c" "d" "None" "None" 3 ])
  = [ TAB ++ " # Dependencies" ++ NL;
      TAB ++ " a->b[label=1,color=black,style=dashed,fontcolor=black]" ++ NL;
      TAB ++ " b->c[label=1,color=black,style=dashed,fontcolor=black]" ++ NL;
      TAB ++ " c->d[label=1,color=black,fontcolor=black]" ++ NL ].
Proof. vm_compute. reflexivity. Qed.

(** C3, where the code departs from it: the rows (a_b, c) and (a, b_c)
    have different endpoint pairs but the same key a_b_c, and the writer
    raises the duplicate-edge exception on the second one. *)
Theorem distinct_pairs_rejected :
  let data := [ row "a_b" "c" "None" "None" 1;
                row "a" "b_c" "None" "None" 1 ] in
  NoDup (map (fun l => (task_in l, task_out l)) data)
  /\ written_by (write_dependencies data)
     = [ TAB ++ " # Dependencies" ++ NL;
         edge_text (row "a_b" "c" "None" "None" 1) false ]
  /\ outcome (write_dependencies data) = Raise duplicate_edge.
Proof.
  cbv zeta. split; [|split; vm_compute; reflexivity].
  repeat constructor; simpl; intuition discriminate.
Qed.

End DependencyFacts.

(** ** The version check and the driver loop *)

Section DriverFacts.
Import Classifier Writer Driver Spec.

Variable open_read : string -> result string.
Variable read_csv : string -> result DataFrame.
Variable splitext0 : string -> string.

Lemma set_task_colours_total (data : DataFrame) :
  exists data',
    set_task_colours data = Ok data'
    /\ map edge_key data' = map edge_key data.
Proof.
  induction data as [|l data (data' & IH & Hkeys)]; simpl.
  - now exists [].
  - destruct (get_task_colour_total (task_in l)) as [col ->].
    rewrite IH. cbn [rbind].
    exists (set_colour l col :: data'). split; [reflexivity|].
    cbn [map]. now rewrite Hkeys.
Qed.

(** A first line that is not a comment yields [None], whatever the
    version of the previous file. *)
Lemma no_comment_no_version (f text : string) (git : option string) :
  open_read f = Ok text ->
  readline text <> EmptyString ->
  startswith (readline text) "#" = false ->
  get_git_version open_read f git = Ok None.
Proof.
  intros Hopen Hline Hstart. unfold get_git_version.
  rewrite Hopen. cbn [rbind].
  destruct (readline text) as [|c rest]; [contradiction|].
  cbn [item0 rbind].
  unfold startswith in Hstart. cbn [String.prefix] in Hstart.
  destruct (Ascii.eqb_spec c "#") as [-> | Hc]; [|reflexivity].
  destruct (ascii_dec "#" "#") as [_ | Hne]; [|contradiction].
  destruct rest; discriminate Hstart.
Qed.

(** On an empty file [readline] returns the empty string and indexing it
    raises. *)
Lemma empty_file_raises (f : string) (git : option string) :
  open_read f = Ok EmptyString ->
  get_git_version open_read f git = Raise IndexError.
Proof. intros H. unfold get_git_version. now rewrite H. Qed.

(** The comparison inside [get_git_version] does raise when it is given
    the version of a previous file that differs. *)
Lemma version_check_raises (f text g : string) :
  open_read f = Ok text ->
  startswith (readline text) "#" = true ->
  g <> rstrip (slice_from 2 (readline text)) ->
  get_git_version open_read f (Some g) = Raise version_mismatch.
Proof.
  intros Hopen Hstart Hg. unfold get_git_version.
  rewrite Hopen. cbn [rbind].
  unfold startswith in Hstart.
  destruct (readline text) as [|c rest]; [discriminate Hstart|].
  cbn [String.prefix] in Hstart.
  destruct (ascii_dec "#" c) as [<- | Hne]; [|discriminate Hstart].
  cbn [item0 rbind]. rewrite Ascii.eqb_refl. cbn [negb].
  apply String.eqb_neq in Hg. now rewrite Hg.
Qed.

(** Called with [None] for the previous version, as the driver loop
    always does, it never raises the mismatch. *)
Lemma version_check_skipped (f : string) :
  open_read f <> Raise version_mismatch ->
  get_git_version open_read f None <> Raise version_mismatch.
Proof.
  intros Hopen. unfold get_git_version.
  destruct (open_read f) as [text|e]; cbn [rbind];
    [|intros H; apply Hopen; congruence].
  destruct (readline text) as [|c rest]; cbn [item0 rbind];
    [discriminate|].
  destruct (negb (Ascii.eqb c "#")); discriminate.
Qed.

(** The four writers in sequence on a fresh file: the header comes
    first, and nothing raises unless an edge key repeats or the cluster
    cells mix strings with missing values. *)
Lemma run_graph (data : DataFrame) (git : option string)
    (args : Namespace) :
  exists body r,
    (write_header data git args ;;
     write_clusters data ;;
     write_dependencies data ;;
     write_footer) []
    = (app (header_lines git) body, r)
    /\ (NoDup (map edge_key data) -> mixed_clusters data = false ->
        r = Ok tt).
Proof.
  unfold bind at 1.
  destruct (run_write_header data git args [])
    as (names & texts & -> & _).
  unfold bind at 1. rewrite run_write_clusters.
  destruct (np_unique_cells (cluster_values data)) as [clusters|e] eqn:Hu.
  2:{ cbn [app]. rewrite <- !app_assoc.
      eexists. exists (Raise e). split; [reflexivity|].
      intros _ Hmix. apply np_unique_cells_raise in Hu.
      unfold mixed_clusters in Hmix. destruct Hu as [Hu _].
      rewrite Hu in Hmix. discriminate Hmix. }
  unfold bind at 1.
  match goal with
  | |- context [write_dependencies data ?f] =>
      destruct (run_write_dependencies data f) as (k & r & -> & Hcase)
  end.
  destruct Hcase as [(_ & -> & _) | (_ & -> & Hn)].
  - unfold write_footer, write. cbn [app]. rewrite <- !app_assoc.
    eexists. exists (Ok tt). split; [reflexivity | auto].
  - cbn [app]. rewrite <- !app_assoc.
    eexists. exists (Raise duplicate_edge).
    split; [reflexivity | intros H; contradiction].
Qed.

(** One iteration of the driver loop on a file without a version
    comment. *)
Lemma run_process_no_comment (args : Namespace) (f text : string)
    (data : DataFrame) (w : world) :
  open_read f = Ok text ->
  readline text <> EmptyString ->
  startswith (readline text) "#" = false ->
  read_csv f = Ok data ->
  exists body rest r,
    process open_read read_csv splitext0 args f w
    = (app w (WriteFile (splitext0 f ++ ".dot")
                        (app (header_lines None) body) :: rest), r)
    /\ (NoDup (map edge_key data) -> mixed_clusters data = false ->
        r = Ok tt).
Proof.
  intros Hopen Hline Hstart Hcsv.
  unfold process. cbv zeta.
  unfold bind at 1. unfold lift at 1. rewrite Hcsv.
  unfold bind at 1. unfold lift at 1.
  rewrite (no_comment_no_version f text None Hopen Hline Hstart).
  unfold bind at 1. unfold lift at 1.
  destruct (set_task_colours_total data) as (data' & Hset & Hkeys).
  pose proof (set_task_colours_clusters data data' Hset) as Hcl.
  rewrite Hset.
  unfold bind at 1. unfold with_open_w at 1.
  destruct (run_graph data' None args) as (body & r & -> & Hr).
  unfold mixed_clusters in Hr. rewrite Hkeys, Hcl in Hr.
  fold (mixed_clusters data) in Hr.
  exists body.
  destruct r as [[]|e].
  - unfold bind at 1. unfold emit at 1.
    unfold bind at 1. unfold emit at 1.
    destruct (with_calls args).
    + unfold bind, emit. rewrite <- !app_assoc. cbn [app].
      eexists. exists (Ok tt). split; reflexivity.
    + unfold ret. rewrite <- !app_assoc. cbn [app].
      eexists. exists (Ok tt). split; reflexivity.
  - exists [], (Raise e). split; [reflexivity | exact Hr].
Qed.

(** C10: when the first line of an input file exists and does not start
    with the comment marker, the version reader returns None without
    raising, and the iteration for that file goes on to write its graph
    file, whose header carries the version None; the iteration ends
    without an exception unless an edge key repeats or the cluster cells
    mix strings with missing values. *)
Theorem missing_comment_not_fatal (args : Namespace) (f text : string)
    (git : option string) (data : DataFrame) (w : world) :
  open_read f = Ok text ->
  readline text <> EmptyString ->
  startswith (readline text) "#" = false ->
  read_csv f = Ok data ->
  get_git_version open_read f git = Ok None
  /\ exists body rest,
       fst (process open_read read_csv splitext0 args f w)
       = app w (WriteFile (splitext0 f ++ ".dot")
                          (app (header_lines None) body) :: rest)
       /\ In (TAB ++ " label=" ++ DQ ++ "Task dependencies for SWIFT None"
                  ++ DQ ++ ";" ++ NL)
             (header_lines None)
       /\ (NoDup (map edge_key data) -> mixed_clusters data = false ->
           snd (process open_read read_csv splitext0 args f w) = Ok tt).
Proof.
  intros Hopen Hline Hstart Hcsv.
  split; [now apply (no_comment_no_version f text)|].
  destruct (run_process_no_comment args f text data w Hopen Hline Hstart
              Hcsv) as (body & rest & r & -> & Hr).
  exists body, rest. cbn [fst snd].
  split; [reflexivity|]. split; [cbn; tauto | exact Hr].
Qed.

End DriverFacts.

Section DriverExamples.
Import Classifier Writer Driver Spec.

Lemma missing_comment_not_fatal_witness :
  get_git_version no_comment_open "deps.csv" (Some "v1") = Ok None
  /\ exists body rest,
       fst (process no_comment_open one_row_csv strip_ext
                    (mkNamespace false false ["deps.csv"]) "deps.csv" [])
       = app [] (WriteFile (strip_ext "deps.csv" ++ ".dot")
                           (app (header_lines None) body) :: rest)
       /\ In (TAB ++ " label=" ++ DQ ++ "Task dependencies for SWIFT None"
                  ++ DQ ++ ";" ++ NL)
             (header_lines None)
       /\ (NoDup (map edge_key [row "a" "b" "c1" "c1" 1]) ->
           mixed_clusters [row "a" "b" "c1" "c1" 1] = false ->
           snd (process no_comment_open one_row_csv strip_ext
                        (mkNamespace false false ["deps.csv"]) "deps.csv" [])
           = Ok tt).
Proof.
  apply (missing_comment_not_fatal no_comment_open one_row_csv
           strip_ext (mkNamespace false false ["deps.csv"]) "deps.csv"
           csv_text (Some "v1")
           [row "a" "b" "c1" "c1" 1] []).
  - reflexivity.
  - discriminate.
  - reflexivity.
  - reflexivity.
Defined.

(** C1, where the code departs from it: the two files carry the versions
    v1 and v2, and [get_git_version] would raise if it were given v1 when
    reading the second; but the loop resets the previous version to None
    before every call, so the run ends without an exception after
    writing both graph files. *)
Theorem versions_never_compared :
  let run := main (fun _ => true) two_versions_open one_row_csv
                  strip_ext (mkNamespace false false ["a.csv"; "b.csv"])
                  [] in
  get_git_version two_versions_open "a.csv" None = Ok (Some "v1")
  /\ get_git_version two_versions_open "b.csv" None = Ok (Some "v2")
  /\ get_git_version two_versions_open "b.csv" (Some "v1")
     = Raise version_mismatch
  /\ snd run = Ok tt
  /\ written_paths (fst run) = ["a.dot"; "b.dot"].
Proof.
  cbv zeta. repeat split; vm_compute; reflexivity.
Qed.

End DriverExamples.

(** ** Precedence among the classifier predicates *)

Section PrecedenceFacts.
Import Classifier.

Lemma stars_iff (name : string) :
  task_is_stars name = true
  <-> occurs_in "stars" name \/ occurs_in "spart" name
      \/ occurs_in "sf_count" name.
Proof.
  unfold task_is_stars. rewrite <- !str_in_iff.
  destruct (str_in "stars" name), (str_in "spart" name),
           (str_in "sf_count" name); simpl; intuition congruence.
Qed.

(** A name that carries a star marker and no black-hole marker gets the
    colour of the stars, whatever hydro or gravity markers it also
    carries. *)
Theorem stars_before_hydro (name : string) :
  occurs_in "stars" name \/ occurs_in "spart" name
  \/ occurs_in "sf_count" name ->
  task_is_black_holes name = false ->
  get_task_colour name = Ok "darkorange1".
Proof.
  intros H Hbh. apply stars_iff in H.
  unfold get_task_colour. now rewrite Hbh, H.
Qed.

Lemma stars_before_hydro_witness :
  get_task_colour "stars_density_grav" = Ok "darkorange1".
Proof.
  apply (stars_before_hydro "stars_density_grav");
    [ left; exists EmptyString, "_density_grav"; reflexivity
    | reflexivity ].
Defined.

(** A name that contains density is coloured as black holes, stars or
    hydro, in this order of precedence: it is never left to the gravity,
    RT or sink tests, nor to the default. *)
Theorem density_is_hydro_unless_claimed (name : string) :
  occurs_in "density" name ->
  get_task_colour name
  = Ok (if task_is_black_holes name then "forestgreen"
        else if task_is_stars name then "darkorange1"
        else "blue3").
Proof.
  intros H. apply str_in_iff in H.
  unfold get_task_colour.
  destruct (task_is_black_holes name) eqn:Hbh; [reflexivity|].
  destruct (task_is_stars name) eqn:Hst; [reflexivity|].
  assert (Hhy : task_is_hydro name = true).
  { unfold task_is_black_holes in Hbh. unfold task_is_stars in Hst.
    unfold task_is_hydro. rewrite H.
    destruct (str_in "bh" name); [discriminate Hbh|].
    destruct (str_in "stars" name); [discriminate Hst|].
    destruct (str_in "hydro" name); [reflexivity|].
    destruct (str_in "_part" name); reflexivity. }
  now rewrite Hhy.
Qed.

Lemma density_is_hydro_unless_claimed_witness :
  get_task_colour "self_density"
  = Ok (if task_is_black_holes "self_density" then "forestgreen"
        else if task_is_stars "self_density" then "darkorange1"
        else "blue3").
Proof.
  apply (density_is_hydro_unless_claimed "self_density").
  exists "self_", EmptyString. reflexivity.
Defined.

(** The default colour is returned only when no predicate matches: a
    black node is a task that no subsystem claims. *)
Theorem black_only_when_unmatched (name : string) :
  get_task_colour name = Ok "black" ->
  task_is_black_holes name = false
  /\ task_is_stars name = false
  /\ task_is_hydro name = false
  /\ task_is_gravity name = false
  /\ task_is_RT name = false
  /\ task_is_sink name = false.
Proof.
  unfold get_task_colour.
  destruct (task_is_black_holes name); [discriminate|].
  destruct (task_is_stars name); [discriminate|].
  destruct (task_is_hydro name); [discriminate|].
  destruct (task_is_gravity name); [discriminate|].
  destruct (task_is_RT name); [discriminate|].
  destruct (task_is_sink name); [discriminate|].
  auto 10.
Qed.

Lemma black_only_when_unmatched_witness :
  task_is_black_holes "timestep" = false
  /\ task_is_stars "timestep" = false
  /\ task_is_hydro "timestep" = false
  /\ task_is_gravity "timestep" = false
  /\ task_is_RT "timestep" = false
  /\ task_is_sink "timestep" = false.
Proof.
  apply (black_only_when_unmatched "timestep"). reflexivity.
Defined.

End PrecedenceFacts.

(** ** File checks of the argument parser *)

Section ArgumentFacts.
Import Driver.

Variable path_exists : string -> bool.

(** A missing input file is reported before the flags are looked at. *)
Theorem missing_file_raises (args : Namespace) (f : string) :
  In f (files args) ->
  path_exists f = false ->
  parse_args path_exists args
  = Raise (FileNotFoundError "You need to provide one file").
Proof.
  intros Hin Hf. unfold parse_args.
  destruct (forallb path_exists (files args)) eqn:Hall; [|reflexivity].
  rewrite forallb_forall in Hall. rewrite (Hall f Hin) in Hf.
  discriminate Hf.
Qed.

(** When [parse_args] returns, it returns the namespace unchanged with
    its own file list, every file exists, and the two display flags are
    not both set. *)
Theorem parse_args_returns (args a : Namespace) (fs : list string) :
  parse_args path_exists args = Ok (a, fs) ->
  a = args
  /\ fs = files args
  /\ Forall (fun f => path_exists f = true) fs
  /\ (with_calls args = false \/ with_levels args = false).
Proof.
  unfold parse_args.
  destruct (forallb path_exists (files args)) eqn:Hall;
    [|discriminate].
  cbn [negb].
  destruct (with_calls args), (with_levels args); cbn [andb];
    try discriminate;
    intros H; injection H as <- <-;
    (repeat split; auto;
     [apply Forall_forall; now apply forallb_forall]).
Qed.

End ArgumentFacts.

Section ArgumentExamples.
Import Driver.

Lemma missing_file_raises_witness :
  parse_args (fun f => String.eqb f "a.csv")
             (mkNamespace true true ["a.csv"; "b.csv"])
  = Raise (FileNotFoundError "You need to provide one file").
Proof.
  apply (missing_file_raises (fun f => String.eqb f "a.csv")
           (mkNamespace true true ["a.csv"; "b.csv"]) "b.csv").
  - simpl. auto.
  - reflexivity.
Defined.

Lemma parse_args_returns_witness :
  mkNamespace true false ["a.csv"] = mkNamespace true false ["a.csv"]
  /\ ["a.csv"] = files (mkNamespace true false ["a.csv"])
  /\ Forall (fun f => (fun _ : string => true) f = true) ["a.csv"]
  /\ (with_calls (mkNamespace true false ["a.csv"]) = false
      \/ with_levels (mkNamespace true false ["a.csv"]) = false).
Proof.
  apply (parse_args_returns (fun _ => true)
           (mkNamespace true false ["a.csv"])).
  reflexivity.
Defined.

End ArgumentExamples.

(** ** Reading the version comment *)

Section VersionFacts.
Import Driver Spec.

Variable open_read : string -> result string.

Lemma readline_cons (c : ascii) (r : string) :
  c <> ascii_of_nat 10 -> c <> ascii_of_nat 13 ->
  readline (String c r) = String c (readline r).
Proof.
  intros H10 H13. cbn [readline].
  apply Ascii.eqb_neq in H10. apply Ascii.eqb_neq in H13.
  now rewrite H10, H13.
Qed.

Lemma readline_stops (v rest : string) :
  Forall (fun c => c <> ascii_of_nat 10 /\ c <> ascii_of_nat 13)
         (list_ascii_of_string v) ->
  readline (v ++ NL ++ rest) = v ++ NL.
Proof.
  induction v as [|c v IH]; intros Hv.
  - reflexivity.
  - cbn [list_ascii_of_string] in Hv. inversion Hv as [|? ? [H10 H13] Hv'].
    subst. cbn [append].
    rewrite readline_cons by assumption. now rewrite IH.
Qed.

Lemma rstrip_snoc_space (v : string) (c : ascii) :
  is_space c = true -> rstrip (v ++ String c EmptyString) = rstrip v.
Proof.
  intros Hc. induction v as [|x v IH]; cbn [append rstrip].
  - now rewrite Hc.
  - now rewrite IH.
Qed.

(** A version written as a comment line is read back unchanged: when the
    file starts with the marker, one more character, a version that has
    no line break and no trailing white space, and a line feed, the
    reader returns that version, both for the first file and after a
    file of the same version. *)
Theorem version_read_back (f v rest : string) (sep : ascii)
    (git : option string) :
  open_read f = Ok ("#" ++ String sep v ++ NL ++ rest) ->
  sep <> ascii_of_nat 10 -> sep <> ascii_of_nat 13 ->
  Forall (fun c => c <> ascii_of_nat 10 /\ c <> ascii_of_nat 13)
         (list_ascii_of_string v) ->
  rstrip v = v ->
  git = None \/ git = Some v ->
  get_git_version open_read f git = Ok (Some v).
Proof.
  intros Hopen H10 H13 Hv Hstrip Hgit.
  unfold get_git_version. rewrite Hopen. cbn [rbind].
  assert (Hline : readline ("#" ++ String sep v ++ NL ++ rest)
                  = String "#" (String sep (v ++ NL))).
  { cbn [append].
    rewrite (readline_cons "#") by (cbv; discriminate).
    rewrite (readline_cons sep) by assumption.
    now rewrite (readline_stops v rest Hv). }
  rewrite Hline. cbn [item0 rbind slice_from].
  rewrite Ascii.eqb_refl. cbn [negb].
  unfold NL, chr. rewrite rstrip_snoc_space by reflexivity.
  rewrite Hstrip.
  destruct Hgit as [-> | ->]; [reflexivity|].
  now rewrite String.eqb_refl.
Qed.

(** When the reader is given the version of a previous file and returns
    a version, the two are the same string. *)
Theorem version_agrees (f g v : string) :
  get_git_version open_read f (Some g) = Ok (Some v) -> v = g.
Proof.
  unfold get_git_version.
  destruct (open_read f) as [text|e]; cbn [rbind]; [|discriminate].
  destruct (item0 (readline text)) as [c|e]; cbn [rbind]; [|discriminate].
  destruct (negb (Ascii.eqb c "#")); [discriminate|].
  destruct (String.eqb_spec g (rstrip (slice_from 2 (readline text))))
    as [Heq | Hne]; cbn [negb]; [|discriminate].
  intros H. injection H as <-. now symmetry.
Qed.

Lemma rstrip_cons (c : ascii) (s : string) :
  rstrip (String c s)
  = match rstrip s with
    | EmptyString => if is_space c then EmptyString
                     else String c EmptyString
    | String d r => String c (String d r)
    end.
Proof. cbn [rstrip]. now destruct (rstrip s). Qed.

Lemma rstrip_last (s : string) (c : ascii) :
  str_last (rstrip s) = Ok c -> is_space c = false.
Proof.
  induction s as [|x s IH]; [discriminate|].
  rewrite (rstrip_cons x s). destruct (rstrip s) as [|d r] eqn:Hr.
  - destruct (is_space x) eqn:Hx; [discriminate|].
    cbn [str_last]. intros H. injection H as <-. exact Hx.
  - intros H. apply IH. exact H.
Qed.

(** The version returned never ends in a white-space character. *)
Theorem version_is_stripped (f v : string) (git : option string)
    (c : ascii) :
  get_git_version open_read f git = Ok (Some v) ->
  str_last v = Ok c ->
  is_space c = false.
Proof.
  unfold get_git_version.
  destruct (open_read f) as [text|e]; cbn [rbind]; [|discriminate].
  destruct (item0 (readline text)) as [x|e]; cbn [rbind]; [|discriminate].
  destruct (negb (Ascii.eqb x "#")); [discriminate|].
  destruct git as [g|].
  - destruct (negb (String.eqb g (rstrip (slice_from 2 (readline text)))));
      [discriminate|].
    intros H. injection H as <-. apply rstrip_last.
  - intros H. injection H as <-. apply rstrip_last.
Qed.

End VersionFacts.

Section VersionExamples.
Import Driver Spec.

Lemma version_read_back_witness :
  get_git_version two_versions_open "a.csv" (Some "v1") = Ok (Some "v1").
Proof.
  apply (version_read_back two_versions_open "a.csv" "v1" csv_text " "
           (Some "v1")).
  - reflexivity.
  - discriminate.
  - discriminate.
  - repeat constructor; discriminate.
  - reflexivity.
  - now right.
Defined.

Lemma version_agrees_witness : "v2" = "v2".
Proof.
  apply (version_agrees two_versions_open "b.csv" "v2" "v2").
  reflexivity.
Defined.

Lemma version_is_stripped_witness : is_space "2" = false.
Proof.
  apply (version_is_stripped two_versions_open "b.csv" "v2" None "2");
    reflexivity.
Defined.

End VersionExamples.

(** ** Colouring the table *)

Section ColourFacts.
Import Classifier Writer Spec.

Lemma set_task_colours_rows (data : DataFrame) :
  exists data',
    set_task_colours data = Ok data'
    /\ Forall2 (fun l l' =>
                  get_task_colour (task_in l) = Ok (task_colour l')
                  /\ l' = set_colour l (task_colour l'))
               data data'.
Proof.
  induction data as [|l data (data' & IH & Hall)]; cbn [set_task_colours].
  - exists []. split; [reflexivity | constructor].
  - destruct (get_task_colour_total (task_in l)) as [col Hcol].
    rewrite Hcol, IH. cbn [rbind].
    exists (set_colour l col :: data'). split; [reflexivity|].
    constructor; [|exact Hall]. cbn. auto.
Qed.

(** [set_task_colours] never raises; it keeps the rows in place, changes
    no column but task_colour, and gives each row the colour of its
    source task. *)
Theorem set_task_colours_spec (data : DataFrame) :
  exists data',
    set_task_colours data = Ok data'
    /\ Forall2 (fun l l' =>
                  get_task_colour (task_in l) = Ok (task_colour l')
                  /\ l' = set_colour l (task_colour l'))
               data data'.
Proof. apply set_task_colours_rows. Qed.

(** After [set_task_colours], every edge the dependency writer writes
    carries the colour of its source task, as line and as font colour:
    the edge of a row is the edge statement of that row with its colour
    column set to the classifier's answer for task_in. *)
Theorem edges_coloured_by_source (data data' : DataFrame) :
  set_task_colours data = Ok data' ->
  NoDup (map edge_key data) ->
  exists lines,
    written_by (write_dependencies data')
    = (TAB ++ " # Dependencies" ++ NL) :: lines
    /\ Forall2 (fun l line =>
                  exists col dashed,
                    get_task_colour (task_in l) = Ok col
                    /\ line = edge_text (set_colour l col) dashed)
               data lines.
Proof.
  intros Hset Hnd.
  destruct (set_task_colours_rows data) as (d & Hd & Hall).
  rewrite Hset in Hd. injection Hd as <-.
  assert (Hkeys : map edge_key data' = map edge_key data).
  { clear Hset Hnd. induction Hall as [|l l' ? ? [_ Hl] _ IH];
      [reflexivity|].
    cbn [map]. rewrite IH. f_equal. now rewrite Hl. }
  destruct (run_write_dependencies data' []) as (k & r & Hrun & Hcase).
  rewrite Hkeys in Hcase.
  destruct Hcase as [(Hk & _ & _) | (_ & _ & Hn)]; [|contradiction].
  subst k. rewrite firstn_all in Hrun.
  unfold written_by. rewrite Hrun. cbn [fst app].
  eexists. split; [reflexivity|].
  generalize (series_max (map number_rank data')) as mr. intros mr.
  clear Hrun Hkeys Hset Hnd.
  induction Hall as [|l l' ? ? [Hcol Hl] _ IH]; cbn [map]; constructor;
    [|exact IH].
  exists (task_colour l'), (ne_max (number_rank l') mr).
  split; [exact Hcol | now rewrite <- Hl].
Qed.

Lemma edges_coloured_by_source_witness :
  exists lines,
    written_by
      (write_dependencies
         [set_colour (row "grav_mm" "kick2" "None" "None" 1) "red3"])
    = (TAB ++ " # Dependencies" ++ NL) :: lines
    /\ Forall2 (fun l line =>
                  exists col dashed,
                    get_task_colour (task_in l) = Ok col
                    /\ line = edge_text (set_colour l col) dashed)
               [row "grav_mm" "kick2" "None" "None" 1] lines.
Proof.
  apply (edges_coloured_by_source
           [row "grav_mm" "kick2" "None" "None" 1]).
  - reflexivity.
  - repeat constructor. simpl. tauto.
Defined.

End ColourFacts.

(** ** Contents and order of the cluster blocks *)

Section ClusterContentFacts.
Import Writer Spec.

Lemma sorted_filter (p : string -> bool) (l : list string) :
  StronglySorted String_as_OT.lt l ->
  StronglySorted String_as_OT.lt (filter p l).
Proof.
  induction 1 as [|x l Hs IH Hall]; cbn [filter]; [constructor|].
  destruct (p x); [|exact IH].
  constructor; [exact IH|].
  apply Forall_forall. intros y Hy. apply filter_In in Hy.
  rewrite Forall_forall in Hall. now apply Hall.
Qed.

(** Two sorted lists with the same elements are the same list. *)
Lemma sorted_same_elements (l1 : list string) :
  forall l2,
    StronglySorted String_as_OT.lt l1 ->
    StronglySorted String_as_OT.lt l2 ->
    (forall x, In x l1 <-> In x l2) ->
    l1 = l2.
Proof.
  induction l1 as [|a l1 IH]; intros l2 H1 H2 Heq.
  - destruct l2 as [|b l2]; [reflexivity|].
    exfalso. apply (Heq b). now left.
  - destruct l2 as [|b l2].
    { exfalso. apply (Heq a). now left. }
    inversion H1 as [|? ? Hs1 Hall1]; subst.
    inversion H2 as [|? ? Hs2 Hall2]; subst.
    rewrite Forall_forall in Hall1, Hall2.
    assert (Hab : a = b).
    { destruct (proj1 (Heq a) (or_introl eq_refl)) as [Hba | Ha];
        [now symmetry|].
      destruct (proj2 (Heq b) (or_introl eq_refl)) as [Hab | Hb];
        [exact Hab|].
      exfalso. apply (StrictOrder_Irreflexive a).
      transitivity b; [now apply Hall1 | now apply Hall2]. }
    subst b. f_equal. apply IH; auto.
    intros x. split; intros Hx.
    + destruct (proj1 (Heq x) (or_intror Hx)) as [Hax | Hx2]; [|exact Hx2].
      subst x. exfalso. apply (StrictOrder_Irreflexive a).
      now apply Hall1.
    + destruct (proj2 (Heq x) (or_intror Hx)) as [Hax | Hx1]; [|exact Hx1].
      subst x. exfalso. apply (StrictOrder_Irreflexive a).
      now apply Hall2.
Qed.

Lemma np_unique_same_elements (l1 l2 : list string) :
  (forall x, In x l1 <-> In x l2) -> np_unique l1 = np_unique l2.
Proof.
  intros Heq. apply sorted_same_elements; try apply np_unique_sorted.
  intros x. now rewrite !np_unique_In.
Qed.

Lemma cluster_values_In (data : DataFrame) (c : cell) :
  In c (cluster_values data)
  <-> exists l, In l data /\ (cluster_in l = c \/ cluster_out l = c).
Proof.
  unfold cluster_values. rewrite in_flat_map. split.
  - intros [l [Hl Hc]]. exists l. cbn [In] in Hc. tauto.
  - intros [l [Hl Hc]]. exists l. cbn [In]. tauto.
Qed.

Lemma cell_strings_In (s : string) (cs : list cell) :
  In s (cell_strings cs) <-> In (Str s) cs.
Proof.
  unfold cell_strings. rewrite in_flat_map. split.
  - intros [[x|] [Hc Hs]]; cbn [In] in Hs; [|contradiction].
    destruct Hs as [-> | []]. exact Hc.
  - intros H. exists (Str s). split; [exact H | now left].
Qed.

Lemma cell_eqb_str (a : cell) (s : string) :
  cell_eqb a (Str s) = true <-> a = Str s.
Proof.
  destruct a as [x|]; cbn [cell_eqb].
  - rewrite String.eqb_eq. split; congruence.
  - split; discriminate.
Qed.

Lemma existsb_same_elements {A} (p : A -> bool) (l1 l2 : list A) :
  (forall x, In x l1 <-> In x l2) -> existsb p l1 = existsb p l2.
Proof.
  intros Heq. apply eq_true_iff_eq. rewrite !existsb_exists.
  split; intros [x [Hx Hp]]; exists x; split; auto; now apply Heq.
Qed.

Lemma cluster_tasks_In_cell (data : DataFrame) (c : cell) (t : string) :
  In t (cluster_tasks data c)
  <-> exists l, In l data
                /\ ((cell_eqb (cluster_in l) c = true /\ task_in l = t)
                    \/ (cell_eqb (cluster_out l) c = true
                        /\ task_out l = t)).
Proof.
  unfold cluster_tasks. rewrite np_unique_In, in_app_iff, !in_map_iff.
  split.
  - intros [[l [Ht Hl]] | [l [Ht Hl]]]; apply filter_In in Hl;
      destruct Hl as [Hl Hc]; exists l; auto.
  - intros [l [Hl [[Hc Ht] | [Hc Ht]]]]; [left | right]; exists l;
      (split; [exact Ht|]); apply filter_In; auto.
Qed.

Lemma cluster_tasks_In (data : DataFrame) (c t : string) :
  In t (cluster_tasks data (Str c))
  <-> exists l, In l data
                /\ ((cluster_in l = Str c /\ task_in l = t)
                    \/ (cluster_out l = Str c /\ task_out l = t)).
Proof.
  rewrite cluster_tasks_In_cell.
  split; intros [l [Hl H]]; exists l; (split; [exact Hl|]);
    rewrite !cell_eqb_str in *; exact H.
Qed.

(** On a table whose cluster cells are all strings, the blocks come in
    increasing order of cluster name, and the block of a cluster lists,
    once each and in increasing order, exactly the source tasks of the
    rows that leave the cluster and the target tasks of the rows that
    enter it. *)
Theorem cluster_lists_its_tasks (data : DataFrame) :
  has_nan (cluster_values data) = false ->
  exists cs,
    written_by (write_clusters data)
    = (TAB ++ " # Clusters" ++ NL)
      :: app (List.concat
                (map (fun c => cluster_block (cluster_tasks data (Str c)) c)
                     cs))
             [NL]
    /\ outcome (write_clusters data) = Ok tt
    /\ StronglySorted String_as_OT.lt cs
    /\ (forall c, In c cs
                  <-> c <> "None" /\ In (Str c) (cluster_values data))
    /\ forall c,
         StronglySorted String_as_OT.lt (cluster_tasks data (Str c))
         /\ forall t,
              In t (cluster_tasks data (Str c))
              <-> exists l, In l data
                            /\ ((cluster_in l = Str c /\ task_in l = t)
                                \/ (cluster_out l = Str c
                                    /\ task_out l = t)).
Proof.
  intros Hnan.
  exists (filter (fun c => negb (String.eqb c "None"))
                 (np_unique (cell_strings (cluster_values data)))).
  unfold written_by, outcome. rewrite run_write_clusters.
  unfold np_unique_cells. rewrite Hnan. cbn [fst snd app].
  rewrite string_blocks.
  split; [reflexivity|]. split; [reflexivity|].
  split; [apply sorted_filter, np_unique_sorted|].
  split.
  - intros c. rewrite filter_In, np_unique_In, negb_true_iff,
      String.eqb_neq, cell_strings_In. tauto.
  - intros c. split; [apply np_unique_sorted | apply cluster_tasks_In].
Qed.

Lemma cluster_lists_its_tasks_witness :
  let data := [ row "a" "b" "c2" "c1" 1; row "b" "c" "c1" "None" 1 ] in
  exists cs,
    written_by (write_clusters data)
    = (TAB ++ " # Clusters" ++ NL)
      :: app (List.concat
                (map (fun c => cluster_block (cluster_tasks data (Str c)) c)
                     cs))
             [NL]
    /\ outcome (write_clusters data) = Ok tt
    /\ StronglySorted String_as_OT.lt cs
    /\ (forall c, In c cs
                  <-> c <> "None" /\ In (Str c) (cluster_values data))
    /\ forall c,
         StronglySorted String_as_OT.lt (cluster_tasks data (Str c))
         /\ forall t,
              In t (cluster_tasks data (Str c))
              <-> exists l, In l data
                            /\ ((cluster_in l = Str c /\ task_in l = t)
                                \/ (cluster_out l = Str c
                                    /\ task_out l = t)).
Proof.
  intros data. apply (cluster_lists_its_tasks data). reflexivity.
Defined.

(** What the cluster writer writes depends only on which rows the table
    holds, not on their order or on repetitions. *)
Theorem clusters_ignore_row_order (data data' : DataFrame) :
  (forall l, In l data <-> In l data') ->
  written_by (write_clusters data) = written_by (write_clusters data').
Proof.
  intros Heq. unfold written_by. rewrite !run_write_clusters.
  assert (Hcv : forall c, In c (cluster_values data)
                          <-> In c (cluster_values data')).
  { intros c. rewrite !cluster_values_In.
    split; intros [l [Hl Hc]]; exists l; split; auto; now apply Heq. }
  assert (Hvals : np_unique_cells (cluster_values data)
                  = np_unique_cells (cluster_values data')).
  { unfold np_unique_cells, has_nan, has_str.
    rewrite (existsb_same_elements _ _ _ Hcv).
    rewrite (existsb_same_elements
               (fun c => match c with Str _ => true | NaN => false end)
               _ _ Hcv).
    rewrite (np_unique_same_elements
               (cell_strings (cluster_values data))
               (cell_strings (cluster_values data'))); [reflexivity|].
    intros s. rewrite !cell_strings_In. apply Hcv. }
  rewrite Hvals.
  destruct (np_unique_cells (cluster_values data')) as [clusters|e];
    [|reflexivity].
  cbn [fst app]. do 3 f_equal.
  apply map_ext. intros c. f_equal.
  apply sorted_same_elements; try apply np_unique_sorted.
  intros t. fold (cluster_tasks data c). fold (cluster_tasks data' c).
  rewrite !cluster_tasks_In_cell.
  split; intros [l [Hl Hc]]; exists l; split; auto; now apply Heq.
Qed.

Lemma clusters_ignore_row_order_witness :
  written_by
    (write_clusters [ row "a" "b" "c1" "c2" 1; row "b" "c" "c2" "c1" 1 ])
  = written_by
      (write_clusters [ row "b" "c" "c2" "c1" 1; row "a" "b" "c1" "c2" 1;
                        row "b" "c" "c2" "c1" 1 ]).
Proof.
  apply clusters_ignore_row_order.
  intros l. simpl. tauto.
Defined.

End ClusterContentFacts.

(** ** Where the dependency writer stops, and when its keys are exact *)

Section EdgeKeyFacts.
Import Writer Spec.

Lemma dependency_loop_prefix (max_rank : option Z) (pre : DataFrame) :
  forall (rest : DataFrame) (written : list string) (f : file),
    NoDup (app written (map edge_key pre)) ->
    for_each (dependency max_rank) (app pre rest) written f
    = for_each (dependency max_rank) rest
        (app written (map edge_key pre))
        (app f (map (fun l => edge_text l (ne_max (number_rank l) max_rank))
                    pre)).
Proof.
  induction pre as [|l pre IH]; intros rest written f Hnd.
  - cbn. now rewrite !app_nil_r.
  - cbn [app map for_each]. unfold bind at 1. unfold dependency at 1.
    cbv zeta. fold (edge_key l).
    cbn [map] in Hnd.
    assert (Hnotin : ~ In (edge_key l) written).
    { intros Hin. apply NoDup_remove_2 in Hnd. apply Hnd.
      apply in_or_app. now left. }
    apply list_in_false_iff in Hnotin. rewrite Hnotin.
    unfold bind at 1. unfold write at 1. unfold ret at 1.
    rewrite dependency_text.
    rewrite IH.
    + now rewrite <- !app_assoc.
    + now rewrite <- app_assoc.
Qed.

(** The writer stops at the first row whose key was already used: the
    edges of the rows before it are in the file, and nothing of that row
    or of the rows after it. *)
Theorem stops_at_first_repeat (pre post : DataFrame) (l : Row) :
  NoDup (map edge_key pre) ->
  In (edge_key l) (map edge_key pre) ->
  written_by (write_dependencies (app pre (l :: post)))
  = (TAB ++ " # Dependencies" ++ NL)
    :: map (fun r =>
              edge_text r
                (ne_max (number_rank r)
                   (series_max (map number_rank (app pre (l :: post))))))
           pre
  /\ outcome (write_dependencies (app pre (l :: post)))
     = Raise duplicate_edge.
Proof.
  intros Hnd Hin.
  assert (Hrun : write_dependencies (app pre (l :: post)) []
                 = ((TAB ++ " # Dependencies" ++ NL)
                    :: map (fun r =>
                              edge_text r
                                (ne_max (number_rank r)
                                   (series_max
                                      (map number_rank
                                           (app pre (l :: post))))))
                           pre,
                    Raise duplicate_edge)).
  { unfold write_dependencies. unfold bind at 1. unfold write at 1.
    cbv zeta. unfold bind at 1.
    rewrite dependency_loop_prefix by exact Hnd.
    cbn [for_each app]. unfold bind at 1. unfold dependency at 1.
    cbv zeta. fold (edge_key l).
    apply list_in_iff in Hin. rewrite Hin. reflexivity. }
  unfold written_by, outcome. now rewrite Hrun.
Qed.

Lemma stops_at_first_repeat_witness :
  written_by
    (write_dependencies
       (app [row "a" "b" "None" "None" 1]
            (row "a" "b" "None" "None" 2 :: [row "b" "c" "None" "None" 3])))
  = (TAB ++ " # Dependencies" ++ NL)
    :: map (fun r =>
              edge_text r
                (ne_max (number_rank r)
                   (series_max
                      (map number_rank
                         (app [row "a" "b" "None" "None" 1]
                              (row "a" "b" "None" "None" 2
                               :: [row "b" "c" "None" "None" 3]))))))
           [row "a" "b" "None" "None" 1]
  /\ outcome
       (write_dependencies
          (app [row "a" "b" "None" "None" 1]
               (row "a" "b" "None" "None" 2
                :: [row "b" "c" "None" "None" 3])))
     = Raise duplicate_edge.
Proof.
  apply (stops_at_first_repeat [row "a" "b" "None" "None" 1]
           [row "b" "c" "None" "None" 3] (row "a" "b" "None" "None" 2)).
  - repeat constructor. simpl. tauto.
  - simpl. now left.
Defined.

Lemma str_in_tail (sub : string) (c : ascii) (s : string) :
  str_in sub (String c s) = false -> str_in sub s = false.
Proof.
  cbn [str_in]. intros H. apply orb_false_iff in H. tauto.
Qed.

(** The joined key determines the pair when the source names hold no
    underscore. *)
Lemma edge_key_exact (a : string) :
  forall a' b b',
    str_in "_" a = false -> str_in "_" a' = false ->
    a ++ "_" ++ b = a' ++ "_" ++ b' -> a = a' /\ b = b'.
Proof.
  induction a as [|c a IH]; intros a' b b' Ha Ha' Heq.
  - destruct a' as [|c' a']; cbn [append] in Heq.
    + injection Heq as Heq. auto.
    + injection Heq as Hc _. subst c'.
      rewrite (proj2 (str_in_iff "_" (String "_" a'))) in Ha';
        [discriminate Ha' | now exists EmptyString, a'].
  - destruct a' as [|c' a']; cbn [append] in Heq.
    + injection Heq as Hc _. subst c.
      rewrite (proj2 (str_in_iff "_" (String "_" a))) in Ha;
        [discriminate Ha | now exists EmptyString, a].
    + injection Heq as Hc Heq. subst c'.
      apply str_in_tail in Ha. apply str_in_tail in Ha'.
      destruct (IH a' b b' Ha Ha' Heq) as [-> ->]. auto.
Qed.

Lemma NoDup_map_same_collisions {A B C} (f : A -> B) (g : A -> C)
    (l : list A) :
  (forall x y, In x l -> In y l -> (f x = f y <-> g x = g y)) ->
  NoDup (map f l) <-> NoDup (map g l).
Proof.
  induction l as [|a l IH]; intros H; cbn [map].
  - split; constructor.
  - rewrite !NoDup_cons_iff, IH, !in_map_iff.
    + assert (Hin : (exists x, f x = f a /\ In x l)
                    <-> (exists x, g x = g a /\ In x l)).
      { split; intros [x [Hx Hl]]; exists x; (split; [|exact Hl]);
          apply (H x a); auto using in_cons, in_eq. }
      tauto.
    + intros x y Hx Hy. apply H; now right.
Qed.

(** When no source task name holds an underscore, the writer raises
    exactly when two rows have the same (task_in, task_out) pair. *)
Theorem exact_without_underscore (data : DataFrame) :
  (forall l, In l data -> str_in "_" (task_in l) = false) ->
  (NoDup (map (fun l => (task_in l, task_out l)) data)
   /\ outcome (write_dependencies data) = Ok tt)
  \/ (~ NoDup (map (fun l => (task_in l, task_out l)) data)
      /\ outcome (write_dependencies data) = Raise duplicate_edge).
Proof.
  intros Hus.
  assert (Hiff : NoDup (map edge_key data)
                 <-> NoDup (map (fun l => (task_in l, task_out l)) data)).
  { apply NoDup_map_same_collisions. intros x y Hx Hy. unfold edge_key.
    split; intros H.
    - apply edge_key_exact in H; auto. destruct H as [-> ->]. reflexivity.
    - injection H as -> ->. reflexivity. }
  destruct (dependencies_outcome data) as [[Hnd Hr] | [Hnd Hr]];
    [left | right]; split; auto; now rewrite <- Hiff.
Qed.

Lemma exact_without_underscore_witness :
  (NoDup (map (fun l => (task_in l, task_out l))
              [ row "sort" "self_density" "None" "None" 1;
                row "ghost" "self_force" "None" "None" 1 ])
   /\ outcome
        (write_dependencies
           [ row "sort" "self_density" "None" "None" 1;
             row "ghost" "self_force" "None" "None" 1 ]) = Ok tt)
  \/ (~ NoDup (map (fun l => (task_in l, task_out l))
                   [ row "sort" "self_density" "None" "None" 1;
                     row "ghost" "self_force" "None" "None" 1 ])
      /\ outcome
           (write_dependencies
              [ row "sort" "self_density" "None" "None" 1;
                row "ghost" "self_force" "None" "None" 1 ])
         = Raise duplicate_edge).
Proof.
  apply exact_without_underscore.
  intros l [<- | [<- | []]]; reflexivity.
Defined.

End EdgeKeyFacts.

(** ** Which row declares a task, and with which fill *)

Section DeclarationFacts.
Import Classifier Writer Spec.

Lemma write_task_appends (name : string) (implicit mpi : Z)
    (top hs gs active calls levels : bool) (f : file) :
  write_task name implicit mpi top hs gs active calls levels f
  = (app f (written_by
              (write_task name implicit mpi top hs gs active calls levels)),
     Ok tt).
Proof.
  destruct (task_attributes_shape name implicit mpi top hs gs active
              calls levels) as [mid H].
  unfold written_by, write_task, bind, lift. rewrite H.
  change "," with (String "," EmptyString).
  rewrite str_last_snoc, Ascii.eqb_refl, drop_last_snoc.
  reflexivity.
Qed.

Section FirstRow.

Variable key : Row -> string.
Variable emit : Row -> IO unit.
Hypothesis emit_appends :
  forall l f, emit l f = (app f (written_by (emit l)), Ok tt).

Lemma keyed_loop_total (data : DataFrame) :
  forall (written : list string) (f : file),
    exists texts written',
      for_each (fun l written =>
                  if list_in (key l) written then ret written
                  else emit l ;; ret (app written [key l]))
               data written f
      = (app f texts, Ok written')
      /\ forall n, In n written' <-> In n written \/ In n (map key data).
Proof.
  induction data as [|l data IH]; intros written f.
  - exists [], written. cbn. unfold ret. rewrite app_nil_r.
    split; [reflexivity | tauto].
  - cbn [for_each]. unfold bind at 1.
    destruct (list_in (key l) written) eqn:Hin.
    + unfold ret at 1.
      destruct (IH written f) as (texts & w' & -> & Hw).
      exists texts, w'. split; [reflexivity|].
      intros n. rewrite Hw. cbn [map In].
      apply list_in_iff in Hin.
      split; [tauto | intros [H | [<- | H]]; auto].
    + unfold bind at 1. rewrite emit_appends. unfold ret at 1.
      destruct (IH (app written [key l])
                   (app f (written_by (emit l))))
        as (texts & w' & -> & Hw).
      exists (app (written_by (emit l)) texts), w'.
      rewrite app_assoc. split; [reflexivity|].
      intros n. rewrite Hw, in_app_iff. cbn [map In]. tauto.
Qed.

(** The row that brings a new key is the one whose text is written. *)
Lemma keyed_loop_first (pre : DataFrame) (l : Row) (post : DataFrame) :
  forall (written : list string) (f : file),
    ~ In (key l) written ->
    ~ In (key l) (map key pre) ->
    exists texts written',
      for_each (fun l written =>
                  if list_in (key l) written then ret written
                  else emit l ;; ret (app written [key l]))
               (app pre (l :: post)) written f
      = (app f texts, Ok written')
      /\ incl (written_by (emit l)) texts
      /\ forall n, In n written'
                   <-> In n written
                       \/ In n (map key (app pre (l :: post))).
Proof.
  induction pre as [|x pre IH]; intros written f Hw Hpre.
  - cbn [app for_each]. unfold bind at 1.
    apply list_in_false_iff in Hw. rewrite Hw.
    unfold bind at 1. rewrite emit_appends. unfold ret at 1.
    destruct (keyed_loop_total post (app written [key l])
                (app f (written_by (emit l))))
      as (texts & w' & -> & Hin).
    exists (app (written_by (emit l)) texts), w'.
    rewrite app_assoc. split; [reflexivity|].
    split; [apply incl_appl, incl_refl|].
    intros n. rewrite Hin, in_app_iff. cbn [map In]. tauto.
  - cbn [map In] in Hpre.
    cbn [app for_each]. unfold bind at 1.
    destruct (list_in (key x) written) eqn:Hx.
    + unfold ret at 1.
      destruct (IH written f Hw) as (texts & w' & -> & Hincl & Hin);
        [tauto|].
      exists texts, w'. split; [reflexivity|]. split; [exact Hincl|].
      intros n. rewrite Hin. cbn [app map In].
      apply list_in_iff in Hx.
      split; [tauto | intros [H | [<- | H]]; auto].
    + unfold bind at 1. rewrite emit_appends. unfold ret at 1.
      destruct (IH (app written [key x]) (app f (written_by (emit x))))
        as (texts & w' & -> & Hincl & Hin).
      * rewrite in_app_iff. cbn [In]. intros [H | [H | []]];
          [contradiction | apply Hpre; now left].
      * tauto.
      * exists (app (written_by (emit x)) texts), w'.
        rewrite app_assoc. split; [reflexivity|].
        split; [now apply incl_appr|].
        intros n. rewrite Hin, in_app_iff. cbn [app map In]. tauto.
Qed.

End FirstRow.

Lemma source_text_in_header (pre post : DataFrame) (l : Row)
    (git : option string) (opt : Namespace) :
  ~ In (task_in l) (map task_in pre) ->
  incl (written_by
          (write_task (task_in l) (implicit_in l) (mpi_in l)
             (Z.eqb (task_in_is_top l) 1)
             (Z.eqb (task_in_is_hydro_super l) 1)
             (Z.eqb (task_in_is_grav_super l) 1)
             true (with_calls opt) (with_levels opt)))
       (written_by (write_header (app pre (l :: post)) git opt)).
Proof.
  intros Hpre.
  unfold written_by at 2. unfold write_header.
  unfold bind at 1. rewrite run_write_all.
  unfold bind at 1.
  destruct (keyed_loop_first task_in
              (fun l => write_task (task_in l) (implicit_in l) (mpi_in l)
                          (Z.eqb (task_in_is_top l) 1)
                          (Z.eqb (task_in_is_hydro_super l) 1)
                          (Z.eqb (task_in_is_grav_super l) 1)
                          true (with_calls opt) (with_levels opt))
              (fun l f => write_task_appends _ _ _ _ _ _ _ _ _ f)
              pre l post [] (app [] (header_lines git))
              (fun H => H) Hpre)
    as (texts1 & w1 & Hrun1 & Hincl & _).
  change (for_each (header_in opt) (app pre (l :: post)) []
                   (app [] (header_lines git))
          = (app (app [] (header_lines git)) texts1, Ok w1)) in Hrun1.
  rewrite Hrun1. unfold bind at 1.
  destruct (keyed_loop_total task_out
              (fun l => write_task (task_out l) (implicit_out l) (mpi_out l)
                          (Z.eqb (task_out_is_top l) 1)
                          (Z.eqb (task_out_is_hydro_super l) 1)
                          (Z.eqb (task_out_is_grav_super l) 1)
                          (Z.eqb (cell_has_active_task l) 1)
                          (with_calls opt) (with_levels opt))
              (fun l f => write_task_appends _ _ _ _ _ _ _ _ _ f)
              (app pre (l :: post)) w1
              (app (app [] (header_lines git)) texts1))
    as (texts2 & w2 & Hrun2 & _).
  change (for_each (header_out opt) (app pre (l :: post)) w1
                   (app (app [] (header_lines git)) texts1)
          = (app (app (app [] (header_lines git)) texts1) texts2, Ok w2))
    in Hrun2.
  rewrite Hrun2. unfold write. cbn [fst].
  intros t Ht. apply Hincl in Ht.
  rewrite !in_app_iff. auto.
Qed.

Lemma target_text_in_header (pre post : DataFrame) (l : Row)
    (git : option string) (opt : Namespace) :
  ~ In (task_out l) (map task_in (app pre (l :: post))) ->
  ~ In (task_out l) (map task_out pre) ->
  incl (written_by
          (write_task (task_out l) (implicit_out l) (mpi_out l)
             (Z.eqb (task_out_is_top l) 1)
             (Z.eqb (task_out_is_hydro_super l) 1)
             (Z.eqb (task_out_is_grav_super l) 1)
             (Z.eqb (cell_has_active_task l) 1)
             (with_calls opt) (with_levels opt)))
       (written_by (write_header (app pre (l :: post)) git opt)).
Proof.
  intros Hin Hpre.
  unfold written_by at 2. unfold write_header.
  unfold bind at 1. rewrite run_write_all.
  unfold bind at 1.
  destruct (keyed_loop_total task_in
              (fun l => write_task (task_in l) (implicit_in l) (mpi_in l)
                          (Z.eqb (task_in_is_top l) 1)
                          (Z.eqb (task_in_is_hydro_super l) 1)
                          (Z.eqb (task_in_is_grav_super l) 1)
                          true (with_calls opt) (with_levels opt))
              (fun l f => write_task_appends _ _ _ _ _ _ _ _ _ f)
              (app pre (l :: post)) [] (app [] (header_lines git)))
    as (texts1 & w1 & Hrun1 & Hw1).
  change (for_each (header_in opt) (app pre (l :: post)) []
                   (app [] (header_lines git))
          = (app (app [] (header_lines git)) texts1, Ok w1)) in Hrun1.
  rewrite Hrun1. unfold bind at 1.
  assert (Hfresh : ~ In (task_out l) w1).
  { rewrite Hw1. cbn [In]. tauto. }
  destruct (keyed_loop_first task_out
              (fun l => write_task (task_out l) (implicit_out l) (mpi_out l)
                          (Z.eqb (task_out_is_top l) 1)
                          (Z.eqb (task_out_is_hydro_super l) 1)
                          (Z.eqb (task_out_is_grav_super l) 1)
                          (Z.eqb (cell_has_active_task l) 1)
                          (with_calls opt) (with_levels opt))
              (fun l f => write_task_appends _ _ _ _ _ _ _ _ _ f)
              pre l post w1
              (app (app [] (header_lines git)) texts1) Hfresh Hpre)
    as (texts2 & w2 & Hrun2 & Hincl & _).
  change (for_each (header_out opt) (app pre (l :: post)) w1
                   (app (app [] (header_lines git)) texts1)
          = (app (app (app [] (header_lines git)) texts1) texts2, Ok w2))
    in Hrun2.
  rewrite Hrun2. unfold write. cbn [fst].
  intros t Ht. apply Hincl in Ht.
  rewrite !in_app_iff. auto.
Qed.

Ltac prefix_steps :=
  repeat first [ apply has_prefix_refl | apply has_prefix_app ].

Lemma write_task_one_chunk (name : string) (implicit mpi : Z)
    (top hs gs active calls levels : bool) :
  exists txt,
    written_by (write_task name implicit mpi top hs gs active calls levels)
    = [txt]
    /\ node_statement name txt.
Proof.
  destruct (run_write_task name implicit mpi top hs gs active calls levels
              []) as (txt & Hrun & Hnode).
  exists txt. unfold written_by. rewrite Hrun. auto.
Qed.

(** A task that occurs as a source is declared from the first row in
    which it is the source, with that row's flags, and as a task that is
    active in the cell. *)
Theorem source_declared_from_first_row (pre post : DataFrame) (l : Row)
    (git : option string) (opt : Namespace) :
  ~ In (task_in l) (map task_in pre) ->
  exists txt,
    written_by
      (write_task (task_in l) (implicit_in l) (mpi_in l)
         (Z.eqb (task_in_is_top l) 1)
         (Z.eqb (task_in_is_hydro_super l) 1)
         (Z.eqb (task_in_is_grav_super l) 1)
         true (with_calls opt) (with_levels opt))
    = [txt]
    /\ node_statement (task_in l) txt
    /\ In txt (written_by (write_header (app pre (l :: post)) git opt)).
Proof.
  intros Hpre.
  pose proof (source_text_in_header pre post l git opt Hpre) as Hincl.
  destruct (write_task_one_chunk (task_in l) (implicit_in l) (mpi_in l)
              (Z.eqb (task_in_is_top l) 1)
              (Z.eqb (task_in_is_hydro_super l) 1)
              (Z.eqb (task_in_is_grav_super l) 1)
              true (with_calls opt) (with_levels opt))
    as (txt & Htxt & Hnode).
  exists txt. rewrite Htxt in Hincl.
  repeat split; auto. apply Hincl. now left.
Qed.

(** A task that occurs only as a target is declared from the first row
    in which it is the target, with that row's flags; it counts as active
    only if that row's cell_has_active_task is 1. *)
Theorem target_declared_from_first_row (pre post : DataFrame) (l : Row)
    (git : option string) (opt : Namespace) :
  ~ In (task_out l) (map task_in (app pre (l :: post))) ->
  ~ In (task_out l) (map task_out pre) ->
  exists txt,
    written_by
      (write_task (task_out l) (implicit_out l) (mpi_out l)
         (Z.eqb (task_out_is_top l) 1)
         (Z.eqb (task_out_is_hydro_super l) 1)
         (Z.eqb (task_out_is_grav_super l) 1)
         (Z.eqb (cell_has_active_task l) 1)
         (with_calls opt) (with_levels opt))
    = [txt]
    /\ node_statement (task_out l) txt
    /\ In txt (written_by (write_header (app pre (l :: post)) git opt)).
Proof.
  intros Hin Hpre.
  pose proof (target_text_in_header pre post l git opt Hin Hpre) as Hincl.
  destruct (write_task_one_chunk (task_out l) (implicit_out l) (mpi_out l)
              (Z.eqb (task_out_is_top l) 1)
              (Z.eqb (task_out_is_hydro_super l) 1)
              (Z.eqb (task_out_is_grav_super l) 1)
              (Z.eqb (cell_has_active_task l) 1)
              (with_calls opt) (with_levels opt))
    as (txt & Htxt & Hnode).
  exists txt. rewrite Htxt in Hincl.
  repeat split; auto. apply Hincl. now left.
Qed.

Lemma source_declared_from_first_row_witness :
  exists txt,
    written_by (write_task "b" 0 0 false false false true false false)
    = [txt]
    /\ node_statement "b" txt
    /\ In txt
         (written_by
            (write_header
               (app [row "a" "b" "None" "None" 1]
                    (row "b" "c" "None" "None" 1
                     :: [row "b" "d" "None" "None" 1]))
               None (mkNamespace false false []))).
Proof.
  apply (source_declared_from_first_row
           [row "a" "b" "None" "None" 1] [row "b" "d" "None" "None" 1]
           (row "b" "c" "None" "None" 1) None
           (mkNamespace false false [])).
  simpl. intros [H | []]. discriminate H.
Defined.

Lemma target_declared_from_first_row_witness :
  exists txt,
    written_by (write_task "c" 0 0 false false false true false false)
    = [txt]
    /\ node_statement "c" txt
    /\ In txt
         (written_by
            (write_header
               (app [row "a" "b" "None" "None" 1]
                    (row "b" "c" "None" "None" 1
                     :: [row "a" "c" "None" "None" 1]))
               None (mkNamespace false false []))).
Proof.
  apply (target_declared_from_first_row
           [row "a" "b" "None" "None" 1] [row "a" "c" "None" "None" 1]
           (row "b" "c" "None" "None" 1) None
           (mkNamespace false false [])).
  - simpl. intros [H | [H | [H | []]]]; discriminate H.
  - simpl. intros [H | []]. discriminate H.
Defined.

(** The fill of a node: a task that is not active in the cell is filled
    pink whether or not it is implicit, and an active implicit task is
    filled grey; the fill is the first attribute after the bracket. *)
Theorem inactive_fill_wins (name : string) (implicit mpi : Z)
    (top hs gs calls levels : bool) :
  (exists rest,
     written_by (write_task name implicit mpi top hs gs false calls levels)
     = [(TAB ++ " " ++ name ++ "[")
        ++ "style=filled,fillcolor=lightpink2," ++ rest])
  /\ (implicit <> 0%Z ->
      exists rest,
        written_by (write_task name implicit mpi top hs gs true calls levels)
        = [(TAB ++ " " ++ name ++ "[")
           ++ "style=filled,fillcolor=grey90," ++ rest]).
Proof.
  assert (Hrun : forall active q,
            (exists mid,
               task_attributes name implicit mpi top hs gs active calls
                 levels = Ok ((q ++ mid) ++ ",")) ->
            exists rest,
              written_by
                (write_task name implicit mpi top hs gs active calls levels)
              = [q ++ rest]).
  { intros active q [mid H].
    exists (mid ++ "];" ++ NL).
    unfold written_by, write_task, bind, lift. rewrite H.
    change "," with (String "," EmptyString).
    rewrite str_last_snoc, Ascii.eqb_refl, drop_last_snoc.
    unfold write. cbn [fst app]. now rewrite str_app_assoc. }
  assert (Hok : forall x p, (exists mid, x = (p ++ mid) ++ ",") ->
                exists mid, Ok x = Ok ((p ++ mid) ++ ",")).
  { intros x p [mid ->]. now exists mid. }
  split; [|intros Himp].
  - destruct (Hrun false
                ((TAB ++ " " ++ name ++ "[")
                 ++ "style=filled,fillcolor=lightpink2,")) as [rest Hrest].
    + unfold task_attributes. cbv zeta.
      destruct (get_task_colour_total name) as [col ->].
      cbv beta iota delta [rbind negb]. apply Hok.
      destruct (truthy mpi), levels, calls;
        try destruct (get_function_calls name);
        (apply prefix_and_comma; [prefix_steps | apply ends_comma]).
    + exists rest. now rewrite Hrest, str_app_assoc.
  - destruct (Hrun true
                ((TAB ++ " " ++ name ++ "[")
                 ++ "style=filled,fillcolor=grey90,")) as [rest Hrest].
    + unfold task_attributes. cbv zeta.
      destruct (get_task_colour_total name) as [col ->].
      assert (Ht : truthy implicit = true).
      { unfold truthy. apply negb_true_iff. now apply Z.eqb_neq. }
      rewrite Ht.
      cbv beta iota delta [rbind negb]. apply Hok.
      destruct (truthy mpi), levels, calls;
        try destruct (get_function_calls name);
        (apply prefix_and_comma; [prefix_steps | apply ends_comma]).
    + exists rest. now rewrite Hrest, str_app_assoc.
Qed.

Lemma inactive_fill_wins_witness :
  (exists rest,
     written_by (write_task "ghost_in" 1 0 false true false false false
                            false)
     = [(TAB ++ " " ++ "ghost_in" ++ "[")
        ++ "style=filled,fillcolor=lightpink2," ++ rest])
  /\ (1%Z <> 0%Z ->
      exists rest,
        written_by (write_task "ghost_in" 1 0 false true false true false
                               false)
        = [(TAB ++ " " ++ "ghost_in" ++ "[")
           ++ "style=filled,fillcolor=grey90," ++ rest]).
Proof.
  apply (inactive_fill_wins "ghost_in" 1 0 false true false false false).
Defined.

End DeclarationFacts.

(** ** One iteration of the driver loop, and the whole run *)

Section GraphFacts.
Import Classifier Writer Driver Spec.

Lemma header_lines_not_footer (git : option string) :
  ~ In "}" (header_lines git).
Proof.
  unfold header_lines. cbn [In].
  intros H. repeat (destruct H as [H | H]; [discriminate H|]). exact H.
Qed.

Lemma node_statement_not_footer (names texts : list string) :
  Forall2 node_statement names texts -> ~ In "}" texts.
Proof.
  induction 1 as [|n txt names texts [attrs ->] _ IH]; cbn [In].
  - tauto.
  - intros [H | H]; [discriminate H | contradiction].
Qed.

Lemma cluster_blocks_not_footer {A} (tasks_of : A -> list string)
    (name : A -> string) (cs : list A) :
  ~ In "}" (List.concat
              (map (fun c => cluster_block (tasks_of c) (name c)) cs)).
Proof.
  intros H. apply in_concat in H. destruct H as (block & Hb & Hin).
  apply in_map_iff in Hb. destruct Hb as (c & <- & _).
  unfold cluster_block in Hin. rewrite !in_app_iff in Hin. cbn [In] in Hin.
  rewrite in_map_iff in Hin.
  destruct Hin as [Hin | [Hin | Hin]].
  - repeat (destruct Hin as [Hin | Hin]; [discriminate Hin|]). exact Hin.
  - destruct Hin as [t [H _]]. discriminate H.
  - destruct Hin as [H | H]; [discriminate H | exact H].
Qed.

Lemma edges_not_footer (data : DataFrame) (dashed : Row -> bool) :
  ~ In "}" (map (fun l => edge_text l (dashed l)) data).
Proof.
  rewrite in_map_iff. intros [l [H _]]. discriminate H.
Qed.

(** The four writers on a fresh file: the header lines come first.
    When the cluster cells mix strings with missing values, TypeError is
    raised in the cluster writer; otherwise, when no key repeats, the
    footer closes the graph and nothing is raised, and when a key
    repeats the duplicate-edge exception is raised.  A graph that was
    interrupted has no footer. *)
Lemma run_graph_cases (data : DataFrame) (git : option string)
    (args : Namespace) :
  exists body r,
    (write_header data git args ;;
     write_clusters data ;;
     write_dependencies data ;;
     write_footer) []
    = (app (header_lines git) body, r)
    /\ ((mixed_clusters data = false /\ NoDup (map edge_key data)
         /\ r = Ok tt /\ exists body', body = app body' ["}"])
        \/ (mixed_clusters data = false /\ ~ NoDup (map edge_key data)
            /\ r = Raise duplicate_edge /\ ~ In "}" body)
        \/ (mixed_clusters data = true
            /\ (exists msg, r = Raise (TypeError msg))
            /\ ~ In "}" body)).
Proof.
  unfold bind at 1.
  destruct (run_write_header data git args [])
    as (names & texts & -> & Hnodes & _).
  pose proof (node_statement_not_footer _ _ Hnodes) as H1.
  unfold bind at 1. rewrite run_write_clusters.
  destruct (np_unique_cells (cluster_values data)) as [clusters|e] eqn:Hu.
  2:{ apply np_unique_cells_raise in Hu. destruct Hu as [Hmix ->].
      cbn [app]. rewrite <- !app_assoc.
      eexists. eexists. split; [reflexivity|].
      right. right. split; [exact Hmix|]. split; [eexists; reflexivity|].
      rewrite !in_app_iff. cbn [In].
      intros [H | [[H | []] | [H | []]]];
        try contradiction; discriminate H. }
  assert (Hmix : mixed_clusters data = false).
  { unfold mixed_clusters.
    destruct (has_nan (cluster_values data)
              && has_str (cluster_values data)) eqn:Hm; [|reflexivity].
    rewrite (np_unique_cells_mixed _ Hm) in Hu. discriminate Hu. }
  unfold bind at 1.
  match goal with
  | |- context [write_dependencies data ?f] =>
      destruct (run_write_dependencies data f) as (k & r & Hrun & Hcase)
  end.
  rewrite Hrun. clear Hrun.
  destruct Hcase as [(_ & -> & Hn) | (_ & -> & Hn)].
  - unfold write_footer, write. cbn [app]. rewrite <- !app_assoc.
    eexists. exists (Ok tt). split; [reflexivity|].
    left. split; [exact Hmix|]. split; [exact Hn|].
    split; [reflexivity|].
    eexists. rewrite !app_assoc. reflexivity.
  - cbn [app]. rewrite <- !app_assoc.
    eexists. exists (Raise duplicate_edge). split; [reflexivity|].
    right. left. split; [exact Hmix|]. split; [exact Hn|].
    split; [reflexivity|].
    rewrite !in_app_iff. cbn [In]. rewrite in_app_iff. cbn [In].
    pose proof (cluster_blocks_not_footer (cluster_tasks data) fmt_cell
                  (filter (fun c => negb (cell_eqb c (Str "None")))
                          clusters)) as H2.
    pose proof (edges_not_footer (firstn k data)
                  (fun l => ne_max (number_rank l)
                              (series_max (map number_rank data)))) as H3.
    intros [H | [[H | []] | [[H | [H | [H | []]]] | [H | H]]]];
      try contradiction; discriminate H.
Qed.

End GraphFacts.

Section RunFacts.
Import Classifier Writer Driver Spec.

Variable path_exists : string -> bool.
Variable open_read : string -> result string.
Variable read_csv : string -> result DataFrame.
Variable splitext0 : string -> string.

(** Nothing is written for a file that cannot be read, or whose first
    line cannot be examined: the iteration raises before it opens the
    graph file. *)
Theorem unreadable_input_writes_nothing (args : Namespace) (f : string)
    (e : exn) (w : world) :
  read_csv f = Raise e
  \/ ((exists data, read_csv f = Ok data)
      /\ get_git_version open_read f None = Raise e) ->
  process open_read read_csv splitext0 args f w = (w, Raise e).
Proof.
  intros [Hcsv | [[data Hcsv] Hgit]];
    unfold process; cbv zeta; unfold bind at 1; unfold lift at 1;
    rewrite Hcsv; [reflexivity|].
  unfold bind at 1. unfold lift at 1. now rewrite Hgit.
Qed.

(** Once the table and the version are read, the iteration writes the
    graph file named after the input, starting with the header lines,
    and ends in one of three ways.  When the cluster cells are not a mix
    of strings and missing values and no key repeats, the footer closes
    the graph, the renderer is called on it and the messages are
    printed.  When a key repeats, the duplicate-edge exception is raised;
    when the cluster cells mix strings with missing values, TypeError
    is raised; in both cases the graph file is left without its footer
    and the renderer is not called. *)
Theorem iteration_events (args : Namespace) (f : string)
    (data : DataFrame) (git : option string) (w : world) :
  read_csv f = Ok data ->
  get_git_version open_read f None = Ok git ->
  exists body,
    (mixed_clusters data = false
     /\ NoDup (map edge_key data)
     /\ process open_read read_csv splitext0 args f w
        = (app w
             (app [ WriteFile (splitext0 f ++ ".dot")
                              (app (header_lines git) (app body ["}"]));
                    Call ["dot"; "-Tpng"; splitext0 f ++ ".dot"; "-o";
                          splitext0 f ++ ".png"];
                    Print ("You will find the graph in "
                           ++ splitext0 f ++ ".png") ]
                  (if with_calls args
                   then [ Print ("We recommand to use the python package "
                                 ++ "xdot available on pypi:");
                          Print ("  python3 -m xdot "
                                 ++ splitext0 f ++ ".dot") ]
                   else [])),
           Ok tt))
    \/ (mixed_clusters data = false
        /\ ~ NoDup (map edge_key data)
        /\ ~ In "}" body
        /\ process open_read read_csv splitext0 args f w
           = (app w [WriteFile (splitext0 f ++ ".dot")
                               (app (header_lines git) body)],
              Raise duplicate_edge))
    \/ (mixed_clusters data = true
        /\ ~ In "}" body
        /\ exists msg,
             process open_read read_csv splitext0 args f w
             = (app w [WriteFile (splitext0 f ++ ".dot")
                                 (app (header_lines git) body)],
                Raise (TypeError msg))).
Proof.
  intros Hcsv Hgit.
  assert (Hrun : exists body r tail,
             process open_read read_csv splitext0 args f w
             = (app w (WriteFile (splitext0 f ++ ".dot")
                                 (app (header_lines git) body) :: tail), r)
             /\ ((mixed_clusters data = false
                  /\ NoDup (map edge_key data) /\ r = Ok tt
                  /\ (exists body', body = app body' ["}"])
                  /\ tail
                     = app [ Call ["dot"; "-Tpng"; splitext0 f ++ ".dot";
                                   "-o"; splitext0 f ++ ".png"];
                             Print ("You will find the graph in "
                                    ++ splitext0 f ++ ".png") ]
                           (if with_calls args
                            then [ Print ("We recommand to use the python "
                                          ++ "package xdot available on "
                                          ++ "pypi:");
                                   Print ("  python3 -m xdot "
                                          ++ splitext0 f ++ ".dot") ]
                            else []))
                 \/ (mixed_clusters data = false
                     /\ ~ NoDup (map edge_key data)
                     /\ r = Raise duplicate_edge
                     /\ ~ In "}" body /\ tail = [])
                 \/ (mixed_clusters data = true
                     /\ (exists msg, r = Raise (TypeError msg))
                     /\ ~ In "}" body /\ tail = []))).
  { unfold process. cbv zeta.
    unfold bind at 1. unfold lift at 1. rewrite Hcsv.
    unfold bind at 1. unfold lift at 1. rewrite Hgit.
    unfold bind at 1. unfold lift at 1.
    destruct (set_task_colours_total data) as (data' & Hset & Hkeys).
    pose proof (set_task_colours_clusters data data' Hset) as Hcl.
    rewrite Hset.
    unfold bind at 1. unfold with_open_w at 1.
    destruct (run_graph_cases data' git args)
      as (body & r & -> & Hcase).
    unfold mixed_clusters in Hcase. rewrite Hkeys, Hcl in Hcase.
    fold (mixed_clusters data) in Hcase.
    exists body, r.
    destruct Hcase as [(Hm & Hn & -> & Hbody)
                      | [(Hm & Hn & -> & Hbody)
                        | (Hm & [msg ->] & Hbody)]].
    - unfold bind at 1. unfold emit at 1.
      unfold bind at 1. unfold emit at 1.
      destruct (with_calls args).
      + unfold bind, emit. rewrite <- !app_assoc. cbn [app].
        eexists. split; [reflexivity|]. left. auto.
      + unfold ret. rewrite <- !app_assoc. cbn [app].
        eexists. split; [reflexivity|]. left. auto.
    - exists []. split; [reflexivity|]. right. left. auto.
    - exists []. split; [reflexivity|]. right. right.
      split; [exact Hm|]. split; [now exists msg | auto]. }
  destruct Hrun as (body & r & tail & Hrun & Hcase).
  destruct Hcase as [(Hm & Hn & -> & [body' ->] & ->)
                    | [(Hm & Hn & -> & Hb & ->)
                      | (Hm & [msg ->] & Hb & ->)]].
  - exists body'. left. split; [exact Hm|]. split; [exact Hn|].
    rewrite Hrun. reflexivity.
  - exists body. right. left. auto.
  - exists body. right. right. split; [exact Hm|]. split; [exact Hb|].
    now exists msg.
Qed.

Lemma written_paths_app (w1 w2 : world) :
  written_paths (app w1 w2) = app (written_paths w1) (written_paths w2).
Proof. unfold written_paths. apply flat_map_app. Qed.

(** The ways an iteration can end. *)
Lemma run_process_cases (args : Namespace) (f : string) (w : world) :
  exists w' r,
    process open_read read_csv splitext0 args f w = (w', r)
    /\ ((exists e,
           w' = w /\ r = Raise e
           /\ (read_csv f = Raise e
               \/ get_git_version open_read f None = Raise e))
        \/ (exists content e,
              w' = app w [WriteFile (splitext0 f ++ ".dot") content]
              /\ r = Raise e
              /\ (e = duplicate_edge \/ exists msg, e = TypeError msg))
        \/ (exists content tail,
              w' = app w (WriteFile (splitext0 f ++ ".dot") content :: tail)
              /\ r = Ok tt /\ written_paths tail = [])).
Proof.
  unfold process. cbv zeta.
  unfold bind at 1. unfold lift at 1.
  destruct (read_csv f) as [data|e] eqn:Hcsv.
  2:{ exists w, (Raise e). split; [reflexivity|]. left. exists e. auto. }
  unfold bind at 1. unfold lift at 1.
  destruct (get_git_version open_read f None) as [git|e] eqn:Hgit.
  2:{ exists w, (Raise e). split; [reflexivity|]. left. exists e. auto. }
  unfold bind at 1. unfold lift at 1.
  destruct (set_task_colours_total data) as (data' & -> & Hkeys).
  unfold bind at 1. unfold with_open_w at 1.
  destruct (run_graph_cases data' git args) as (body & r & -> & Hcase).
  destruct Hcase as [(_ & _ & -> & _)
                    | [(_ & _ & -> & _) | (_ & [msg ->] & _)]].
  - unfold bind at 1. unfold emit at 1.
    unfold bind at 1. unfold emit at 1.
    destruct (with_calls args).
    + unfold bind, emit. rewrite <- !app_assoc. cbn [app].
      eexists. exists (Ok tt). split; [reflexivity|].
      right. right. eexists. eexists. split; [reflexivity|].
      split; reflexivity.
    + unfold ret. rewrite <- !app_assoc. cbn [app].
      eexists. exists (Ok tt). split; [reflexivity|].
      right. right. eexists. eexists. split; [reflexivity|].
      split; reflexivity.
  - eexists. exists (Raise duplicate_edge). split; [reflexivity|].
    right. left. eexists. eexists. split; [reflexivity|].
    split; [reflexivity | now left].
  - eexists. exists (Raise (TypeError msg)). split; [reflexivity|].
    right. left. eexists. eexists. split; [reflexivity|].
    split; [reflexivity | right; now exists msg].
Qed.

(** The loop over the input files: the graph files written are those of
    a leading part of the inputs, in order, and of all the inputs when
    nothing is raised; whatever is raised is the duplicate-edge
    exception, a TypeError, or comes from reading one of the files. *)
Lemma run_file_loop (args : Namespace) (fs : list string) :
  forall w,
    exists w' r k,
      for_each (fun f (_ : unit) =>
                  process open_read read_csv splitext0 args f)
               fs tt w = (w', r)
      /\ written_paths w'
         = app (written_paths w)
               (map (fun f => splitext0 f ++ ".dot") (firstn k fs))
      /\ (r = Ok tt -> k = List.length fs)
      /\ (forall e, r = Raise e ->
            e = duplicate_edge
            \/ (exists msg, e = TypeError msg)
            \/ exists f, In f fs
                         /\ (read_csv f = Raise e
                             \/ get_git_version open_read f None
                                = Raise e)).
Proof.
  induction fs as [|f fs IH]; intros w.
  - exists w, (Ok tt), 0. cbn. unfold ret. rewrite app_nil_r.
    repeat split; auto. discriminate.
  - cbn [for_each]. unfold bind at 1.
    destruct (run_process_cases args f w) as (w1 & r1 & -> & Hcase).
    destruct Hcase as [(e & -> & -> & He)
                      | [(content & e & -> & -> & He)
                        | (content & tail & -> & -> & Htail)]].
    + exists w, (Raise e), 0. cbn [firstn map]. rewrite app_nil_r.
      repeat split; auto; [discriminate|].
      intros e' H. injection H as <-. right. right. exists f.
      split; auto. now left.
    + eexists. exists (Raise e), 1.
      split; [reflexivity|]. rewrite written_paths_app.
      cbn [firstn map]. repeat split; auto; [discriminate|].
      intros e' H. injection H as <-. tauto.
    + destruct (IH (app w (WriteFile (splitext0 f ++ ".dot") content
                           :: tail)))
        as (w' & r & k & -> & Hpaths & Hok & Herr).
      exists w', r, (S k). split; [reflexivity|].
      rewrite Hpaths, written_paths_app. cbn [firstn map].
      change (written_paths
                (WriteFile (splitext0 f ++ ".dot") content :: tail))
        with ((splitext0 f ++ ".dot") :: written_paths tail).
      rewrite Htail, <- app_assoc. cbn [app List.length].
      repeat split; auto.
      intros e H.
      destruct (Herr e H) as [-> | [Hty | (f' & Hin & Hf')]];
        [now left | now right; left |].
      right. right. exists f'. split; [now right | exact Hf'].
Qed.

(** When the arguments are rejected the run does nothing at all. *)
Theorem rejected_arguments_do_nothing (argv : Namespace) (e : exn)
    (w : world) :
  parse_args path_exists argv = Raise e ->
  main path_exists open_read read_csv splitext0 argv w = (w, Raise e).
Proof.
  intros H. unfold main, bind, lift. now rewrite H.
Qed.

(** The graph files a run has written are those of a leading part of
    the input files, one per input and in the order of the command
    line; when the run ends without an exception there is one for every
    input. *)
Theorem graphs_follow_inputs (argv : Namespace) (w : world) :
  exists k,
    written_paths
      (fst (main path_exists open_read read_csv splitext0 argv w))
    = app (written_paths w)
          (map (fun f => splitext0 f ++ ".dot") (firstn k (files argv)))
    /\ (snd (main path_exists open_read read_csv splitext0 argv w) = Ok tt
        -> k = List.length (files argv)).
Proof.
  unfold main. unfold bind, lift.
  destruct (parse_args path_exists argv) as [[args fs]|e] eqn:Hargs.
  - assert (Hfs : fs = files argv).
    { unfold parse_args in Hargs.
      destruct (negb (forallb path_exists (files argv))); [discriminate|].
      destruct (with_calls argv && with_levels argv); [discriminate|].
      now injection Hargs as _ <-. }
    subst fs.
    destruct (run_file_loop args (files argv) w)
      as (w' & r & k & -> & Hpaths & Hok & _).
    exists k. cbn [fst snd]. auto.
  - exists 0. cbn [fst snd firstn map]. rewrite app_nil_r.
    split; [reflexivity | discriminate].
Qed.

(** The run never raises the version-mismatch exception of its own
    accord: unless opening or parsing a file raises that very exception,
    no combination of input files makes the run end with it. *)
Theorem mismatch_never_raised (argv : Namespace) (w : world) :
  (forall f, open_read f <> Raise version_mismatch) ->
  (forall f, read_csv f <> Raise version_mismatch) ->
  snd (main path_exists open_read read_csv splitext0 argv w)
  <> Raise version_mismatch.
Proof.
  intros Hopen Hcsv.
  unfold main. unfold bind, lift.
  destruct (parse_args path_exists argv) as [[args fs]|e] eqn:Hargs.
  - destruct (run_file_loop args fs w)
      as (w' & r & k & -> & _ & _ & Herr).
    cbn [snd]. intros ->.
    destruct (Herr version_mismatch eq_refl)
      as [H | [[msg H] | (f & _ & [H | H])]].
    + discriminate H.
    + discriminate H.
    + now apply (Hcsv f).
    + now apply (version_check_skipped open_read f (Hopen f)).
  - cbn [snd]. unfold parse_args in Hargs.
    destruct (negb (forallb path_exists (files argv)));
      [injection Hargs as <-; discriminate|].
    destruct (with_calls argv && with_levels argv);
      [injection Hargs as <-; discriminate | discriminate].
Qed.

End RunFacts.

Section RunExamples.
Import Classifier Writer Driver Spec.

Lemma unreadable_input_writes_nothing_witness :
  process no_comment_open one_row_csv strip_ext
          (mkNamespace false false ["e.csv"]) "e.csv" []
  = ([], Raise (OtherError
                  "EmptyDataError: No columns to parse from file")).
Proof.
  apply (unreadable_input_writes_nothing no_comment_open one_row_csv
           strip_ext).
  left. reflexivity.
Defined.

Lemma iteration_events_witness :
  exists body,
    (mixed_clusters [row "a" "b" "c1" "c1" 1] = false
     /\ NoDup (map edge_key [row "a" "b" "c1" "c1" 1])
     /\ process two_versions_open one_row_csv strip_ext
                (mkNamespace false false ["a.csv"]) "a.csv" []
        = (app []
             (app [ WriteFile (strip_ext "a.csv" ++ ".dot")
                              (app (header_lines (Some "v1"))
                                   (app body ["}"]));
                    Call ["dot"; "-Tpng"; strip_ext "a.csv" ++ ".dot"; "-o";
                          strip_ext "a.csv" ++ ".png"];
                    Print ("You will find the graph in "
                           ++ strip_ext "a.csv" ++ ".png") ]
                  (if with_calls (mkNamespace false false ["a.csv"])
                   then [ Print ("We recommand to use the python package "
                                 ++ "xdot available on pypi:");
                          Print ("  python3 -m xdot "
                                 ++ strip_ext "a.csv" ++ ".dot") ]
                   else [])),
           Ok tt))
    \/ (mixed_clusters [row "a" "b" "c1" "c1" 1] = false
        /\ ~ NoDup (map edge_key [row "a" "b" "c1" "c1" 1])
        /\ ~ In "}" body
        /\ process two_versions_open one_row_csv strip_ext
                   (mkNamespace false false ["a.csv"]) "a.csv" []
           = (app [] [WriteFile (strip_ext "a.csv" ++ ".dot")
                                (app (header_lines (Some "v1")) body)],
              Raise duplicate_edge))
    \/ (mixed_clusters [row "a" "b" "c1" "c1" 1] = true
        /\ ~ In "}" body
        /\ exists msg,
             process two_versions_open one_row_csv strip_ext
                     (mkNamespace false false ["a.csv"]) "a.csv" []
             = (app [] [WriteFile (strip_ext "a.csv" ++ ".dot")
                                  (app (header_lines (Some "v1")) body)],
                Raise (TypeError msg))).
Proof.
  apply (iteration_events two_versions_open one_row_csv strip_ext
           (mkNamespace false false ["a.csv"]) "a.csv"
           [row "a" "b" "c1" "c1" 1] (Some "v1") []);
    reflexivity.
Defined.

Lemma rejected_arguments_do_nothing_witness :
  main (fun _ => true) two_versions_open one_row_csv strip_ext
       (mkNamespace true true ["a.csv"]) []
  = ([], Raise (ValueError "I can't run with --with-calls and"
                           " --with-levels simultaneously. Pick one!")).
Proof.
  apply (rejected_arguments_do_nothing (fun _ => true) two_versions_open
           one_row_csv strip_ext).
  reflexivity.
Defined.

Lemma mismatch_never_raised_witness :
  snd (main (fun _ => true) two_versions_open one_row_csv strip_ext
            (mkNamespace false false ["a.csv"; "b.csv"]) [])
  <> Raise version_mismatch.
Proof.
  apply (mismatch_never_raised (fun _ => true) two_versions_open
           one_row_csv strip_ext).
  - intros f. unfold two_versions_open.
    destruct (String.eqb f "a.csv"); [discriminate|].
    destruct (String.eqb f "b.csv"); discriminate.
  - intros f. unfold one_row_csv.
    destruct (list_in f ["a.csv"; "b.csv"; "deps.csv"]); [discriminate|].
    destruct (String.eqb f "e.csv"); discriminate.
Defined.

End RunExamples.
